(** * SyncWave Pro: the WebSocket room server

    A shallow embedding of the real-time room presence and fan-out
    service set up by [setupWebSocket] (the handlers [handleMessage],
    [handleJoinRoom], [handleLeaveRoom], [handleChatMessage],
    [handleMediaControl], [handleScreenShare], [handleDisconnection],
    [broadcastToRoom], [sendMessage] and [sendError]) together with the
    message schemas of [packages/shared/src/index.ts].

    The two process-wide tables [connections] and [roomConnections] are
    JavaScript [Map]s.  A JavaScript [Map] iterates in insertion order and
    [forEach] / [values()] expose that order (it decides the order of the
    sends of a broadcast and of the [users] array of a [room_state]
    message), so a [Map] is modelled as an association list that keeps
    insertion order. *)

From Stdlib Require Import Ascii String List Bool Arith Lia DecimalString.
From Stdlib Require DecimalNat DecimalFacts.
Import ListNotations.
Local Open Scope string_scope.
Local Open Scope list_scope.


(** ** Keys of a JavaScript [Map] *)

Class KeyEq (K : Type) := {
  key_eqb : K -> K -> bool;
  key_eqb_eq : forall a b, key_eqb a b = true <-> a = b
}.

#[export] Instance string_KeyEq : KeyEq string :=
  {| key_eqb := String.eqb; key_eqb_eq := String.eqb_eq |}.

#[export] Instance nat_KeyEq : KeyEq nat :=
  {| key_eqb := Nat.eqb; key_eqb_eq := Nat.eqb_eq |}.

(** ** JavaScript [Map] as an insertion-ordered association list *)

Module JsMap.

Definition t (K V : Type) := list (K * V).

Section Ops.
Context {K V : Type} `{KeyEq K}.

Definition empty : t K V := [].

(** [m.get(k)] *)
Fixpoint get (m : t K V) (k : K) : option V :=
  match m with
  | [] => None
  | (k', v) :: m' => if key_eqb k k' then Some v else get m' k
  end.

(** [m.has(k)] *)
Definition has (m : t K V) (k : K) : bool :=
  match get m k with Some _ => true | None => false end.

(** [m.set(k, v)]: an existing key keeps its position, a new key goes last. *)
Fixpoint set (m : t K V) (k : K) (v : V) : t K V :=
  match m with
  | [] => [(k, v)]
  | (k', v') :: m' =>
      if key_eqb k k' then (k', v) :: m' else (k', v') :: set m' k v
  end.

(** [m.delete(k)].  Keys are unique in every map built from [empty] by
    [set] and [delete], so the pair removed is the only one with the key. *)
Fixpoint delete (m : t K V) (k : K) : t K V :=
  match m with
  | [] => []
  | (k', v') :: m' =>
      if key_eqb k k' then delete m' k else (k', v') :: delete m' k
  end.

(** [m.size] *)
Definition size (m : t K V) : nat := length m.

(** [Array.from(m.keys())] and [Array.from(m.values())] *)
Definition keys (m : t K V) : list K := map fst m.
Definition values (m : t K V) : list V := map snd m.

(** [m.forEach((v, k) => ...)] threading a state through the callback. *)
Definition forEach {S : Type} (m : t K V) (f : S -> V -> K -> S) (s : S) : S :=
  fold_left (fun acc kv => f acc (snd kv) (fst kv)) m s.

End Ops.
End JsMap.

(** ** Data model *)

(** A web-socket object is a mutable JavaScript object that is shared by
    reference between the [ws] library, [connections] and the
    [RoomConnection] entries.  Objects live in a store and are named by a
    handle. *)
Definition Handle := nat.

(** [Date] values, as milliseconds since the epoch. *)
Definition Date := nat.

(** [WebSocket.readyState] *)
Inductive ReadyState := CONNECTING | OPEN | CLOSING | CLOSED.

Definition ReadyState_eqb (a b : ReadyState) : bool :=
  match a, b with
  | CONNECTING, CONNECTING | OPEN, OPEN | CLOSING, CLOSING | CLOSED, CLOSED => true
  | _, _ => false
  end.

(** [interface ExtendedWebSocket extends WebSocket] *)
Record ExtendedWebSocket := {
  ws_userId : option string;
  ws_roomId : option string;
  ws_isAlive : option bool;
  ws_readyState : ReadyState
}.

(** [interface RoomConnection] *)
Record RoomConnection := {
  rc_userId : string;
  rc_username : string;
  rc_ws : Handle;
  rc_joinedAt : Date
}.

(** Message schemas of [packages/shared/src/index.ts]. *)
Record JoinRoomMessage := {
  jr_roomId : string;
  jr_token : string;
  jr_timestamp : Date
}.

Record LeaveRoomMessage := {
  lr_roomId : string;
  lr_timestamp : Date
}.

Record ChatMessage := {
  cm_roomId : string;
  cm_message : string;
  cm_senderId : option string;
  cm_id : option string;
  cm_timestamp : Date
}.

Inductive MediaAction := play | pause | stop | seek | volume.

Definition MediaAction_name (a : MediaAction) : string :=
  match a with
  | play => "play" | pause => "pause" | stop => "stop"
  | seek => "seek" | volume => "volume"
  end.

Record MediaControlMessage := {
  mc_roomId : string;
  mc_action : MediaAction;
  mc_payload : option string;
  mc_senderId : option string;
  mc_timestamp : Date
}.

Inductive ScreenShareType := SCREEN_SHARE_START | SCREEN_SHARE_STOP.

Definition ScreenShareType_name (k : ScreenShareType) : string :=
  match k with
  | SCREEN_SHARE_START => "screen_share_start"
  | SCREEN_SHARE_STOP => "screen_share_stop"
  end.

Record ScreenShareMessage := {
  ss_type : ScreenShareType;
  ss_roomId : string;
  ss_senderId : option string;
  ss_timestamp : Date
}.

(** What [JSON.parse(data) as WebSocketMessage] can hand to
    [handleMessage]: one of the six schemas, a value whose [type] is none
    of the cases of the [switch], or [null], the one JSON value on which
    reading [message.type] throws. *)
Inductive WebSocketMessage :=
| JOIN_ROOM (m : JoinRoomMessage)
| LEAVE_ROOM (m : LeaveRoomMessage)
| CHAT_MESSAGE (m : ChatMessage)
| MEDIA_CONTROL (m : MediaControlMessage)
| SCREEN_SHARE (m : ScreenShareMessage)
| HEARTBEAT (timestamp : Date)
| OTHER_TYPE (type : string)
| NULL.

(** One element of the [users] array of a [room_state] message. *)
Record RoomUser := {
  ru_userId : string;
  ru_username : string;
  ru_joinedAt : Date
}.

(** Objects the server passes to [ws.send]. *)
Inductive ServerMessage :=
| USER_JOINED (roomId userId username : string) (timestamp : Date)
| USER_LEFT (roomId userId username : string) (timestamp : Date)
| ROOM_STATE (roomId : string) (users : list RoomUser) (timestamp : Date)
| CHAT (m : ChatMessage)
| MEDIA (m : MediaControlMessage)
| SCREEN (m : ScreenShareMessage)
| HEARTBEAT_REPLY (timestamp : Date)
| ERROR (code message : string) (timestamp : Date).

(** [senderId] and [timestamp] of a sent object. *)
Definition senderIdOf (m : ServerMessage) : option string :=
  match m with
  | CHAT c => cm_senderId c
  | MEDIA c => mc_senderId c
  | SCREEN c => ss_senderId c
  | _ => None
  end.

Definition timestampOf (m : ServerMessage) : Date :=
  match m with
  | USER_JOINED _ _ _ t | USER_LEFT _ _ _ t | ROOM_STATE _ _ t => t
  | CHAT c => cm_timestamp c
  | MEDIA c => mc_timestamp c
  | SCREEN c => ss_timestamp c
  | HEARTBEAT_REPLY t | ERROR _ _ t => t
  end.

(** Lines written through [logger]. *)
Inductive LogLevel := LogInfo | LogWarn | LogError | LogDebug.

Definition LogEntry := (LogLevel * string)%type.

(** The state of the server process: the store of socket objects, the two
    module-level tables, and the two output channels (frames handed to
    [ws.send], lines handed to [logger]), oldest first. *)
Record World := {
  sockets : JsMap.t Handle ExtendedWebSocket;
  connections : JsMap.t string Handle;
  roomConnections : JsMap.t string (JsMap.t string RoomConnection);
  outbox : list (Handle * ServerMessage);
  logs : list LogEntry
}.

Definition initial : World :=
  {| sockets := JsMap.empty; connections := JsMap.empty;
     roomConnections := JsMap.empty; outbox := []; logs := [] |}.

Definition with_sockets (w : World) (s : JsMap.t Handle ExtendedWebSocket) : World :=
  {| sockets := s; connections := connections w;
     roomConnections := roomConnections w; outbox := outbox w; logs := logs w |}.

Definition with_connections (w : World) (c : JsMap.t string Handle) : World :=
  {| sockets := sockets w; connections := c;
     roomConnections := roomConnections w; outbox := outbox w; logs := logs w |}.

Definition with_roomConnections (w : World)
  (r : JsMap.t string (JsMap.t string RoomConnection)) : World :=
  {| sockets := sockets w; connections := connections w;
     roomConnections := r; outbox := outbox w; logs := logs w |}.

Definition with_outbox (w : World) (o : list (Handle * ServerMessage)) : World :=
  {| sockets := sockets w; connections := connections w;
     roomConnections := roomConnections w; outbox := o; logs := logs w |}.

Definition with_logs (w : World) (l : list LogEntry) : World :=
  {| sockets := sockets w; connections := connections w;
     roomConnections := roomConnections w; outbox := outbox w; logs := l |}.

(** A handle that was never handed out by the transport names no object;
    reading it gives a socket that is not open and carries no binding. *)
Definition detached : ExtendedWebSocket :=
  {| ws_userId := None; ws_roomId := None; ws_isAlive := None;
     ws_readyState := CLOSED |}.

Definition socket (w : World) (ws : Handle) : ExtendedWebSocket :=
  match JsMap.get (sockets w) ws with
  | Some s => s
  | None => detached
  end.

Definition update_socket (w : World) (ws : Handle)
  (f : ExtendedWebSocket -> ExtendedWebSocket) : World :=
  with_sockets w (JsMap.set (sockets w) ws (f (socket w ws))).

(** [ws.readyState === WebSocket.OPEN] *)
Definition isOpen (w : World) (ws : Handle) : bool :=
  ReadyState_eqb (ws_readyState (socket w ws)) OPEN.

(** JavaScript truthiness of a [string | undefined]: [undefined] and the
    empty string are falsy. *)
Definition truthy (v : option string) : option string :=
  match v with
  | Some s => if String.eqb s "" then None else Some s
  | None => None
  end.

(** The guard [!ws.userId || !ws.roomId] fails exactly when both fields
    are truthy; [bound] then gives their values. *)
Definition bound (s : ExtendedWebSocket) : option (string * string) :=
  match truthy (ws_userId s), truthy (ws_roomId s) with
  | Some u, Some r => Some (u, r)
  | _, _ => None
  end.

(** [logger.info(...)] and friends. *)
Definition log (w : World) (level : LogLevel) (line : string) : World :=
  with_logs w (logs w ++ [(level, line)]).

(** [roomConnections.get(roomId)!] *)
Definition roomUsersOf (w : World) (roomId : string) : JsMap.t string RoomConnection :=
  match JsMap.get (roomConnections w) roomId with
  | Some roomUsers => roomUsers
  | None => JsMap.empty
  end.

(** The member set recorded for a room. *)
Definition members (w : World) (roomId : string) : list string :=
  JsMap.keys (roomUsersOf w roomId).

Definition decimal (n : nat) : string := NilZero.string_of_uint (Nat.to_uint n).

(** ** The handlers *)

Section Server.

(** [app.jwt.verify]: the payload [{userId, username}] of a token that
    verifies, [None] when verification throws. *)
Variable jwt_verify : string -> option (string * string).

(** Every [new Date()] / [Date.now()] evaluated while one event is handled
    reads the argument [now]. *)

(** [function sendMessage(ws, message)] *)
Definition sendMessage (w : World) (ws : Handle) (message : ServerMessage) : World :=
  if isOpen w ws then with_outbox w (outbox w ++ [(ws, message)]) else w.

(** [function sendError(ws, code, message)] *)
Definition sendError (w : World) (ws : Handle) (code message : string) (now : Date) : World :=
  sendMessage w ws (ERROR code message now).

(** [userId !== excludeUserId] is [negb (excluded userId excludeUserId)];
    an absent [excludeUserId] is [undefined] and excludes nobody. *)
Definition excluded (userId : string) (excludeUserId : option string) : bool :=
  match excludeUserId with
  | Some x => String.eqb userId x
  | None => false
  end.

(** [function broadcastToRoom(roomId, message, excludeUserId?)] *)
Definition broadcastToRoom (w : World) (roomId : string) (message : ServerMessage)
  (excludeUserId : option string) : World :=
  match JsMap.get (roomConnections w) roomId with
  | None => w
  | Some roomUsers =>
      JsMap.forEach roomUsers
        (fun acc connection userId =>
           if negb (excluded userId excludeUserId) && isOpen acc (rc_ws connection)
           then sendMessage acc (rc_ws connection) message
           else acc) w
  end.

(** [function generateMessageId()]: [random] is the rendering of
    [Math.random().toString(36).substr(2, 9)]. *)
Definition generateMessageId (now : Date) (random : string) : string :=
  "msg_" ++ decimal now ++ "_" ++ random.

(** [currentUsers] of [handleJoinRoom]. *)
Definition currentUsers (roomUsers : JsMap.t string RoomConnection) : list RoomUser :=
  map (fun conn => {| ru_userId := rc_userId conn; ru_username := rc_username conn;
                      ru_joinedAt := rc_joinedAt conn |})
      (JsMap.values roomUsers).

(** [async function handleJoinRoom(ws, message, app)] *)
Definition handleJoinRoom (w : World) (ws : Handle) (message : JoinRoomMessage)
  (now : Date) : World :=
  match jwt_verify (jr_token message) with
  | Some (userId, username) =>
      let w := update_socket w ws (fun s =>
                 {| ws_userId := Some userId; ws_roomId := Some (jr_roomId message);
                    ws_isAlive := ws_isAlive s; ws_readyState := ws_readyState s |}) in
      let w := with_connections w (JsMap.set (connections w) userId ws) in
      let w := if JsMap.has (roomConnections w) (jr_roomId message) then w
               else with_roomConnections w
                      (JsMap.set (roomConnections w) (jr_roomId message) JsMap.empty) in
      let roomUsers :=
        JsMap.set (roomUsersOf w (jr_roomId message)) userId
          {| rc_userId := userId; rc_username := username; rc_ws := ws;
             rc_joinedAt := now |} in
      let w := with_roomConnections w
                 (JsMap.set (roomConnections w) (jr_roomId message) roomUsers) in
      let w := broadcastToRoom w (jr_roomId message)
                 (USER_JOINED (jr_roomId message) userId username now) (Some userId) in
      let w := sendMessage w ws
                 (ROOM_STATE (jr_roomId message)
                    (currentUsers (roomUsersOf w (jr_roomId message))) now) in
      log w LogInfo ("User " ++ username ++ " joined room " ++ jr_roomId message)
  | None =>
      let w := log w LogError "Error joining room:" in
      sendError w ws "JOIN_ROOM_FAILED" "Failed to join room" now
  end.

(** [async function handleLeaveRoom(ws, message)] *)
Definition handleLeaveRoom (w : World) (ws : Handle) (message : LeaveRoomMessage)
  (now : Date) : World :=
  match bound (socket w ws) with
  | None => sendError w ws "NOT_IN_ROOM" "Not currently in a room" now
  | Some (userId, roomId) =>
      let w :=
        match JsMap.get (roomConnections w) roomId with
        | Some roomUsers =>
            match JsMap.get roomUsers userId with
            | Some userConnection =>
                let w := with_roomConnections w
                           (JsMap.set (roomConnections w) roomId
                              (JsMap.delete roomUsers userId)) in
                let w := broadcastToRoom w roomId
                           (USER_LEFT roomId userId (rc_username userConnection) now)
                           (Some userId) in
                if Nat.eqb (JsMap.size (roomUsersOf w roomId)) 0
                then with_roomConnections w (JsMap.delete (roomConnections w) roomId)
                else w
            | None => w
            end
        | None => w
        end in
      let w := with_connections w (JsMap.delete (connections w) userId) in
      let w := update_socket w ws (fun s =>
                 {| ws_userId := None; ws_roomId := None;
                    ws_isAlive := ws_isAlive s; ws_readyState := ws_readyState s |}) in
      log w LogInfo ("User left room " ++ lr_roomId message)
  end.

(** [async function handleChatMessage(ws, message)] *)
Definition handleChatMessage (w : World) (ws : Handle) (message : ChatMessage)
  (now : Date) (random : string) : World :=
  match bound (socket w ws) with
  | None => sendError w ws "NOT_IN_ROOM" "Must be in a room to send messages" now
  | Some (userId, roomId) =>
      let chatMessage :=
        {| cm_roomId := cm_roomId message; cm_message := cm_message message;
           cm_id := Some (generateMessageId now random);
           cm_timestamp := now;
           cm_senderId := Some userId |} in
      let w := broadcastToRoom w roomId (CHAT chatMessage) None in
      log w LogDebug ("Chat message sent in room " ++ roomId ++ " by " ++ userId)
  end.

(** [async function handleMediaControl(ws, message)] *)
Definition handleMediaControl (w : World) (ws : Handle) (message : MediaControlMessage)
  (now : Date) : World :=
  match bound (socket w ws) with
  | None => sendError w ws "NOT_IN_ROOM" "Must be in a room to control media" now
  | Some (userId, roomId) =>
      let controlMessage :=
        {| mc_roomId := mc_roomId message; mc_action := mc_action message;
           mc_payload := mc_payload message;
           mc_senderId := Some userId;
           mc_timestamp := now |} in
      let w := broadcastToRoom w roomId (MEDIA controlMessage) (Some userId) in
      log w LogDebug ("Media control " ++ MediaAction_name (mc_action message)
                        ++ " sent in room " ++ roomId ++ " by " ++ userId)
  end.

(** [async function handleScreenShare(ws, message)] *)
Definition handleScreenShare (w : World) (ws : Handle) (message : ScreenShareMessage)
  (now : Date) : World :=
  match bound (socket w ws) with
  | None => sendError w ws "NOT_IN_ROOM" "Must be in a room to share screen" now
  | Some (userId, roomId) =>
      let shareMessage :=
        {| ss_type := ss_type message; ss_roomId := ss_roomId message;
           ss_senderId := Some userId;
           ss_timestamp := now |} in
      let w := broadcastToRoom w roomId (SCREEN shareMessage) (Some userId) in
      log w LogInfo ("Screen share " ++ ScreenShareType_name (ss_type message)
                       ++ " by " ++ userId ++ " in room " ++ roomId)
  end.

(** [function handleDisconnection(ws)] *)
Definition handleDisconnection (w : World) (ws : Handle) (now : Date) : World :=
  match truthy (ws_userId (socket w ws)) with
  | Some userId =>
      let w :=
        match truthy (ws_roomId (socket w ws)) with
        | Some roomId =>
            match JsMap.get (roomConnections w) roomId with
            | Some roomUsers =>
                match JsMap.get roomUsers userId with
                | Some userConnection =>
                    let w := with_roomConnections w
                               (JsMap.set (roomConnections w) roomId
                                  (JsMap.delete roomUsers userId)) in
                    let w := broadcastToRoom w roomId
                               (USER_LEFT roomId userId (rc_username userConnection) now)
                               (Some userId) in
                    if Nat.eqb (JsMap.size (roomUsersOf w roomId)) 0
                    then with_roomConnections w
                           (JsMap.delete (roomConnections w) roomId)
                    else w
                | None => w
                end
            | None => w
            end
        | None => w
        end in
      let w := with_connections w (JsMap.delete (connections w) userId) in
      log w LogInfo ("User " ++ userId ++ " disconnected")
  | None => w
  end.

(** [async function handleMessage(ws, message, app)].  The [try] block is
    the [switch], here the inner [match]; it yields [None] when it throws.
    The handlers do not throw ([handleJoinRoom] catches its own errors),
    so that happens only at the scrutinee [message.type], a [TypeError]
    when [message] is [null], before anything was done; the [catch] arm
    then logs and answers [MESSAGE_HANDLER_ERROR]. *)
Definition handleMessage (w : World) (ws : Handle) (message : WebSocketMessage)
  (now : Date) (random : string) : World :=
  match
    match message with
    | NULL => None
    | JOIN_ROOM m => Some (handleJoinRoom w ws m now)
    | LEAVE_ROOM m => Some (handleLeaveRoom w ws m now)
    | CHAT_MESSAGE m => Some (handleChatMessage w ws m now random)
    | MEDIA_CONTROL m => Some (handleMediaControl w ws m now)
    | SCREEN_SHARE m => Some (handleScreenShare w ws m now)
    | HEARTBEAT _ => Some (sendMessage w ws (HEARTBEAT_REPLY now))
    | OTHER_TYPE type =>
        let w := log w LogWarn ("Unknown message type: " ++ type) in
        Some (sendError w ws "UNKNOWN_MESSAGE_TYPE" "Unknown message type" now)
    end
  with
  | Some w => w
  | None =>
      let w := log w LogError "Error handling WebSocket message:" in
      sendError w ws "MESSAGE_HANDLER_ERROR" "Failed to process message" now
  end.

(** ** Events of [setupWebSocket] *)

(** [ws.terminate()] of the [ws] library: a socket that is not yet closed
    goes to [CLOSING] and its transport is destroyed; the ['close'] event
    follows later. *)
Definition set_readyState (w : World) (ws : Handle) (st : ReadyState) : World :=
  update_socket w ws (fun s =>
    {| ws_userId := ws_userId s; ws_roomId := ws_roomId s;
       ws_isAlive := ws_isAlive s; ws_readyState := st |}).

Definition terminate (w : World) (ws : Handle) : World :=
  match ws_readyState (socket w ws) with
  | CLOSED => w
  | _ => set_readyState w ws CLOSING
  end.

Definition set_isAlive (w : World) (ws : Handle) (b : bool) : World :=
  update_socket w ws (fun s =>
    {| ws_userId := ws_userId s; ws_roomId := ws_roomId s;
       ws_isAlive := Some b; ws_readyState := ws_readyState s |}).

Inductive Event :=
| OnConnection (ws : Handle)
    (* wss.on('connection'): a new open socket, never seen before *)
| OnMessage (ws : Handle) (data : option WebSocketMessage)
    (* ws.on('message'); [None] when JSON.parse throws, and then the
       listener's own catch arm answers INVALID_MESSAGE *)
| OnClosing (ws : Handle)
    (* the closing handshake has begun: the library sets readyState to
       CLOSING; no listener of setupWebSocket runs yet *)
| OnClose (ws : Handle)
    (* ws.on('close'): the library has set readyState to CLOSED *)
| OnError (ws : Handle)
    (* ws.on('error') *)
| OnPong (ws : Handle)
    (* ws.on('pong') *)
| OnHeartbeat (ws : Handle).
    (* the body of the 30 s interval for one client of wss.clients *)

(** One event together with the readings of the clock and of
    [Math.random] taken while it is handled. *)
Record Tick := {
  now : Date;
  random : string;
  event : Event
}.

Definition step (w : World) (t : Tick) : World :=
  match event t with
  | OnConnection ws =>
      if JsMap.has (sockets w) ws then w
      else
        let w := log w LogInfo "New WebSocket connection established" in
        with_sockets w (JsMap.set (sockets w) ws
          {| ws_userId := None; ws_roomId := None; ws_isAlive := Some true;
             ws_readyState := OPEN |})
  | OnMessage ws (Some message) => handleMessage w ws message (now t) (random t)
  | OnMessage ws None =>
      let w := log w LogError "Error parsing WebSocket message:" in
      sendError w ws "INVALID_MESSAGE" "Invalid message format" (now t)
  | OnClosing ws => set_readyState w ws CLOSING
  | OnClose ws => handleDisconnection (set_readyState w ws CLOSED) ws (now t)
  | OnError ws =>
      let w := log w LogError "WebSocket error:" in
      handleDisconnection w ws (now t)
  | OnPong ws => set_isAlive w ws true
  | OnHeartbeat ws =>
      match ws_isAlive (socket w ws) with
      | Some false => terminate (handleDisconnection w ws (now t)) ws
      | _ => set_isAlive w ws false
      end
  end.

(** The server after a sequence of events, oldest first. *)
Definition run (trace : list Tick) (w : World) : World := fold_left step trace w.

(** ** Notions the properties are stated with *)

(** The block that [handleLeaveRoom] and [handleDisconnection] both carry
    verbatim, on its own: look the room and the user's entry up, delete the
    entry, notify the others, drop the room once it is empty. *)
Definition removeFromRoom (w : World) (userId roomId : string) (now : Date) : World :=
  match JsMap.get (roomConnections w) roomId with
  | Some roomUsers =>
      match JsMap.get roomUsers userId with
      | Some userConnection =>
          let w := with_roomConnections w
                     (JsMap.set (roomConnections w) roomId
                        (JsMap.delete roomUsers userId)) in
          let w := broadcastToRoom w roomId
                     (USER_LEFT roomId userId (rc_username userConnection) now)
                     (Some userId) in
          if Nat.eqb (JsMap.size (roomUsersOf w roomId)) 0
          then with_roomConnections w (JsMap.delete (roomConnections w) roomId)
          else w
      | None => w
      end
  | None => w
  end.

(** The sockets a broadcast over [roomUsers] writes to, in order: one per
    entry whose key is not excluded and whose socket is open. *)
Definition recipients (w : World) (roomUsers : JsMap.t string RoomConnection)
  (excludeUserId : option string) : list Handle :=
  map (fun kv => rc_ws (snd kv))
      (filter (fun kv => negb (excluded (fst kv) excludeUserId)
                         && isOpen w (rc_ws (snd kv)))
              roomUsers).

(** What [w'] has sent beyond what [w] had sent. *)
Definition sent_since (w w' : World) : list (Handle * ServerMessage) :=
  skipn (length (outbox w)) (outbox w').

Definition deliveries_to (ws : Handle) (sent : list (Handle * ServerMessage))
  : list ServerMessage :=
  map snd (filter (fun hm => Nat.eqb (fst hm) ws) sent).

(** The socket through which the event makes [userId] join [roomId], if
    the event is a JoinRoom whose credential verifies. *)
Definition joiner (e : Event) (roomId userId : string) : option Handle :=
  match e with
  | OnMessage ws (Some (JOIN_ROOM m)) =>
      match jwt_verify (jr_token m) with
      | Some (u, _) =>
          if String.eqb u userId && String.eqb (jr_roomId m) roomId
          then Some ws else None
      | None => None
      end
  | _ => None
  end.

(** The socket whose session the event ends: it leaves, is disconnected
    (close, error) or is evicted by the heartbeat. *)
Definition departing (w : World) (e : Event) : option Handle :=
  match e with
  | OnMessage ws (Some (LEAVE_ROOM _)) => Some ws
  | OnClose ws => Some ws
  | OnError ws => Some ws
  | OnHeartbeat ws =>
      match ws_isAlive (socket w ws) with
      | Some false => Some ws
      | _ => None
      end
  | _ => None
  end.

(** The event ends the session of socket [ws]. *)
Definition ends_session_of (ws : Handle) (w : World) (e : Event) : bool :=
  match departing w e with
  | Some ws' => Nat.eqb ws' ws
  | None => false
  end.

(** The event ends the session of a socket that is, at that moment, bound
    to [userId] and [roomId]. *)
Definition ends_binding_of (roomId userId : string) (w : World) (e : Event) : bool :=
  match departing w e with
  | Some ws =>
      match bound (socket w ws) with
      | Some (u, r) => String.eqb u userId && String.eqb r roomId
      | None => false
      end
  | None => false
  end.

(** No event of [after], handled from [w] on, is [gone]. *)
Fixpoint undisturbed (gone : World -> Event -> bool) (w : World) (after : list Tick)
  : bool :=
  match after with
  | [] => true
  | t :: rest => negb (gone w (event t)) && undisturbed gone (step w t) rest
  end.

(** Some event of the trace made [userId] join [roomId], and nothing
    [gone] happened since; [gone] is told the joining socket. *)
Fixpoint joined_and_not_gone (gone : Handle -> World -> Event -> bool) (w : World)
  (trace : list Tick) (roomId userId : string) : bool :=
  match trace with
  | [] => false
  | t :: after =>
      match joiner (event t) roomId userId with
      | Some ws => undisturbed (gone ws) (step w t) after
      | None => false
      end
      || joined_and_not_gone gone (step w t) after roomId userId
  end.

(** The member set as the specification words it: joined, and the joining
    socket has not since left, been disconnected or been evicted. *)
Definition joined_and_not_left (trace : list Tick) (roomId userId : string) : bool :=
  joined_and_not_gone ends_session_of initial trace roomId userId.

(** The member set as the handlers keep it: joined, and no socket bound to
    this very user and room has since left, been disconnected or been
    evicted. *)
Definition joined_and_not_unbound (trace : list Tick) (roomId userId : string) : bool :=
  joined_and_not_gone (fun _ => ends_binding_of roomId userId) initial trace
    roomId userId.

(** No room of the table is empty. *)
Definition all_nonempty (rooms : JsMap.t string (JsMap.t string RoomConnection)) : Prop :=
  forall roomId roomUsers, JsMap.get rooms roomId = Some roomUsers -> roomUsers <> [].

Definition no_empty_room (w : World) : Prop := all_nonempty (roomConnections w).

(** [USER_JOINED] frames. *)
Definition is_USER_JOINED (m : ServerMessage) : bool :=
  match m with USER_JOINED _ _ _ _ => true | _ => false end.

(** The entries of a room that name socket [h]. *)
Definition entries_on (h : Handle) (roomUsers : JsMap.t string RoomConnection)
  : JsMap.t string RoomConnection :=
  filter (fun kv => Nat.eqb (rc_ws (snd kv)) h) roomUsers.

(** A user is a member of at most one room. *)
Definition single_room (w : World) : Prop :=
  forall userId r1 r2,
    In userId (members w r1) -> In userId (members w r2) -> r1 = r2.

(** Keys are unique in the three tables and in every member map. *)
Definition unique_keys (w : World) : Prop :=
  NoDup (JsMap.keys (sockets w))
  /\ NoDup (JsMap.keys (connections w))
  /\ NoDup (JsMap.keys (roomConnections w))
  /\ forall roomId roomUsers,
       JsMap.get (roomConnections w) roomId = Some roomUsers ->
       NoDup (JsMap.keys roomUsers).

(** [userId] has an entry in a room other than [roomId]. *)
Definition elsewhere (w : World) (userId roomId : string) : bool :=
  existsb (fun kv => negb (String.eqb (fst kv) roomId) && JsMap.has (snd kv) userId)
          (roomConnections w).

(** Every JoinRoom of the trace that verifies is for a user who has no
    entry in another room when it is handled. *)
Fixpoint joins_only_when_roomless (w : World) (trace : list Tick) : bool :=
  match trace with
  | [] => true
  | t :: rest =>
      match event t with
      | OnMessage _ (Some (JOIN_ROOM m)) =>
          match jwt_verify (jr_token m) with
          | Some (u, _) => negb (elsewhere w u (jr_roomId m))
          | None => true
          end
      | _ => true
      end
      && joins_only_when_roomless (step w t) rest
  end.

(** The envelope with the [senderId] and [timestamp] the client chose
    replaced by other values. *)
Definition client_stamped (message : WebSocketMessage) (senderId : option string)
  (timestamp : Date) : WebSocketMessage :=
  match message with
  | CHAT_MESSAGE m =>
      CHAT_MESSAGE {| cm_roomId := cm_roomId m; cm_message := cm_message m;
                      cm_senderId := senderId; cm_id := cm_id m;
                      cm_timestamp := timestamp |}
  | MEDIA_CONTROL m =>
      MEDIA_CONTROL {| mc_roomId := mc_roomId m; mc_action := mc_action m;
                       mc_payload := mc_payload m; mc_senderId := senderId;
                       mc_timestamp := timestamp |}
  | SCREEN_SHARE m =>
      SCREEN_SHARE {| ss_type := ss_type m; ss_roomId := ss_roomId m;
                      ss_senderId := senderId; ss_timestamp := timestamp |}
  | other => other
  end.

(** Chat, media-control and screen-share envelopes. *)
Definition relayed (message : WebSocketMessage) : bool :=
  match message with
  | CHAT_MESSAGE _ | MEDIA_CONTROL _ | SCREEN_SHARE _ => true
  | _ => false
  end.

(** The frame is of the envelope's kind and has the envelope's fields in
    everything but [senderId], [timestamp] and [id]. *)
Definition carries (message : WebSocketMessage) (frame : ServerMessage) : Prop :=
  match message, frame with
  | CHAT_MESSAGE m, CHAT c =>
      cm_roomId c = cm_roomId m /\ cm_message c = cm_message m
  | MEDIA_CONTROL m, MEDIA c =>
      mc_roomId c = mc_roomId m /\ mc_action c = mc_action m
      /\ mc_payload c = mc_payload m
  | SCREEN_SHARE m, SCREEN c =>
      ss_type c = ss_type m /\ ss_roomId c = ss_roomId m
  | _, _ => False
  end.

End Server.

Arguments handleMessage jwt_verify w ws !message now random /.

(** ** Notions for the properties of the event loop *)

(** The socket whose listener (or heartbeat turn) handles the event. *)
Definition origin (e : Event) : Handle :=
  match e with
  | OnConnection ws | OnMessage ws _ | OnClosing ws | OnClose ws
  | OnError ws | OnPong ws | OnHeartbeat ws => ws
  end.

(** The character occurs nowhere in the string. *)
Fixpoint free_of (c : ascii) (s : string) : Prop :=
  match s with
  | EmptyString => True
  | String a rest => a <> c /\ free_of c rest
  end.

(** Frames that answer the sender of an envelope. *)
Definition is_reply (m : ServerMessage) : bool :=
  match m with
  | ERROR _ _ _ | HEARTBEAT_REPLY _ | ROOM_STATE _ _ _ => true
  | _ => false
  end.

(** The room and user a presence frame is about. *)
Definition presence_of (m : ServerMessage) : option (string * string) :=
  match m with
  | USER_JOINED r u _ _ | USER_LEFT r u _ _ => Some (r, u)
  | _ => None
  end.

(** Every entry of every room is filed under its own [userId]. *)
Definition keyed (rooms : JsMap.t string (JsMap.t string RoomConnection)) : Prop :=
  forall roomId roomUsers k c,
    JsMap.get rooms roomId = Some roomUsers -> In (k, c) roomUsers -> rc_userId c = k.

Definition entries_keyed_by_userId (w : World) : Prop := keyed (roomConnections w).

(** Events that call neither the join, nor the leave, nor the disconnect
    path: everything but JoinRoom and LeaveRoom envelopes, close, error,
    and the heartbeat turn of a socket that missed its probe. *)
Definition bystander (w : World) (e : Event) : bool :=
  match e with
  | OnConnection _ | OnClosing _ | OnPong _ => true
  | OnMessage _ None => true
  | OnMessage _ (Some (JOIN_ROOM _)) | OnMessage _ (Some (LEAVE_ROOM _)) => false
  | OnMessage _ (Some _) => true
  | OnClose _ | OnError _ => false
  | OnHeartbeat ws =>
      match ws_isAlive (socket w ws) with
      | Some false => false
      | _ => true
      end
  end.

(** ** A concrete deployment, for examples

    A verifier that knows two accounts, and a few short event sequences. *)

Module Demo.

Definition verify (token : string) : option (string * string) :=
  if String.eqb token "token-alice" then Some ("alice", "Alice")
  else if String.eqb token "token-bob" then Some ("bob", "Bob")
  else None.

Definition tick (n : Date) (e : Event) : Tick :=
  {| now := n; random := "k3x9q1z7p"; event := e |}.

Definition join (ws : Handle) (room token : string) : Event :=
  OnMessage ws (Some (JOIN_ROOM
    {| jr_roomId := room; jr_token := token; jr_timestamp := 0 |})).

Definition leave (ws : Handle) (room : string) : Event :=
  OnMessage ws (Some (LEAVE_ROOM {| lr_roomId := room; lr_timestamp := 0 |})).

Definition chat (ws : Handle) (room text : string) (sender : option string) : Event :=
  OnMessage ws (Some (CHAT_MESSAGE
    {| cm_roomId := room; cm_message := text; cm_senderId := sender;
       cm_id := None; cm_timestamp := 7 |})).

(** Socket 1 connects and joins r1 as alice. *)
Definition alice_alone : list Tick :=
  [ tick 10 (OnConnection 1);
    tick 11 (join 1 "r1" "token-alice") ].

(** ... then joins r2 on the same socket ... *)
Definition two_rooms : list Tick :=
  alice_alone ++ [ tick 12 (join 1 "r2" "token-alice") ].

(** ... and its transport closes. *)
Definition rejoin_then_close : list Tick :=
  two_rooms ++ [ tick 13 (OnClose 1) ].

(** After that, socket 2 connects and joins r1 as bob. *)
Definition bob_meets_stale_alice : list Tick :=
  rejoin_then_close ++ [ tick 14 (OnConnection 2) ].

(** alice on socket 1 and bob on socket 2 share room r1. *)
Definition alice_and_bob : list Tick :=
  [ tick 10 (OnConnection 1);
    tick 11 (join 1 "r1" "token-alice");
    tick 12 (OnConnection 2);
    tick 13 (join 2 "r1" "token-bob") ].

(** alice's transport starts closing while she is still in r1 with bob. *)
Definition alice_closing : list Tick :=
  alice_and_bob ++ [ tick 14 (OnClosing 1) ].

(** alice is alone in r1 and her transport starts closing; bob connects. *)
Definition bob_arrives : list Tick :=
  [ tick 10 (OnConnection 1);
    tick 11 (join 1 "r1" "token-alice");
    tick 12 (OnClosing 1);
    tick 13 (OnConnection 2) ].

Definition bob_join : JoinRoomMessage :=
  {| jr_roomId := "r1"; jr_token := "token-bob"; jr_timestamp := 0 |}.

Definition bad_join : JoinRoomMessage :=
  {| jr_roomId := "r1"; jr_token := "expired"; jr_timestamp := 0 |}.

Definition alice_entry : RoomConnection :=
  {| rc_userId := "alice"; rc_username := "Alice"; rc_ws := 1; rc_joinedAt := 11 |}.

Definition goodbye (room : string) : LeaveRoomMessage :=
  {| lr_roomId := room; lr_timestamp := 0 |}.

Definition hello : ChatMessage :=
  {| cm_roomId := "r1"; cm_message := "hi"; cm_senderId := Some "mallory";
     cm_id := Some "forged"; cm_timestamp := 7 |}.

(** alice is in r1; socket 2 has connected and not joined yet. *)
Definition bob_connected : list Tick :=
  alice_alone ++ [ tick 12 (OnConnection 2) ].

(** What alice's chat message looks like once stamped at time 20. *)
Definition hello_stamped : ServerMessage :=
  CHAT {| cm_roomId := "r1"; cm_message := "hi"; cm_senderId := Some "alice";
          cm_id := Some "msg_20_k3x9q1z7p"; cm_timestamp := 20 |}.

(** Socket 1 joins the room whose id is the empty string. *)
Definition nameless_room : list Tick :=
  [ tick 10 (OnConnection 1);
    tick 11 (join 1 "" "token-alice") ].

End Demo.

(** * Facts *)

(** ** Keys and maps *)

Lemma key_eqb_refl {K} `{KeyEq K} (a : K) : key_eqb a a = true.
Proof. now apply key_eqb_eq. Qed.

Lemma key_eqb_neq {K} `{KeyEq K} (a b : K) : key_eqb a b = false <-> a <> b.
Proof.
  split.
  - intros E Heq. apply key_eqb_eq in Heq. congruence.
  - intros N. destruct (key_eqb a b) eqn:E; [|reflexivity].
    apply key_eqb_eq in E. contradiction.
Qed.

Lemma key_eqb_sym {K} `{KeyEq K} (a b : K) : key_eqb a b = key_eqb b a.
Proof.
  destruct (key_eqb a b) eqn:E.
  - apply key_eqb_eq in E. subst. symmetry. apply key_eqb_refl.
  - symmetry. apply key_eqb_neq. apply key_eqb_neq in E. congruence.
Qed.

Module JsMapFacts.
Import JsMap.
Section Facts.
Context {K V : Type} `{KeyEq K}.

Lemma get_set (m : t K V) (k k' : K) (v : V) :
  get (set m k v) k' = if key_eqb k' k then Some v else get m k'.
Proof.
  induction m as [|[k0 v0] m IH]; simpl.
  - reflexivity.
  - destruct (key_eqb k k0) eqn:E; simpl.
    + apply key_eqb_eq in E; subst k0.
      destruct (key_eqb k' k); reflexivity.
    + rewrite IH. destruct (key_eqb k' k0) eqn:E0; [|reflexivity].
      apply key_eqb_eq in E0; subst k0.
      rewrite key_eqb_sym, E. reflexivity.
Qed.

Lemma get_set_eq (m : t K V) (k : K) (v : V) : get (set m k v) k = Some v.
Proof. rewrite get_set, key_eqb_refl. reflexivity. Qed.

Lemma get_set_ne (m : t K V) (k k' : K) (v : V) :
  k' <> k -> get (set m k v) k' = get m k'.
Proof. intros N. rewrite get_set. apply key_eqb_neq in N. now rewrite N. Qed.

Lemma get_delete (m : t K V) (k k' : K) :
  get (delete m k) k' = if key_eqb k' k then None else get m k'.
Proof.
  induction m as [|[k0 v0] m IH]; simpl.
  - destruct (key_eqb k' k); reflexivity.
  - destruct (key_eqb k k0) eqn:E; simpl.
    + apply key_eqb_eq in E; subst k0. rewrite IH.
      destruct (key_eqb k' k); reflexivity.
    + rewrite IH. destruct (key_eqb k' k0) eqn:E0; [|reflexivity].
      apply key_eqb_eq in E0; subst k0.
      rewrite key_eqb_sym, E. reflexivity.
Qed.

Lemma get_delete_eq (m : t K V) (k : K) : get (delete m k) k = None.
Proof. rewrite get_delete, key_eqb_refl. reflexivity. Qed.

Lemma get_delete_ne (m : t K V) (k k' : K) :
  k' <> k -> get (delete m k) k' = get m k'.
Proof. intros N. rewrite get_delete. apply key_eqb_neq in N. now rewrite N. Qed.

Lemma delete_absent (m : t K V) (k : K) : get m k = None -> delete m k = m.
Proof.
  induction m as [|[k0 v0] m IH]; simpl; [reflexivity|].
  destruct (key_eqb k k0); [discriminate|].
  intros E. now rewrite IH.
Qed.

Lemma in_keys_get (m : t K V) (k : K) : In k (keys m) <-> get m k <> None.
Proof.
  induction m as [|[k0 v0] m IH]; simpl.
  - split; [tauto | congruence].
  - destruct (key_eqb k k0) eqn:E.
    + apply key_eqb_eq in E; subst. split; [congruence | auto].
    + apply key_eqb_neq in E. rewrite <- IH. split.
      * intros [E1|I]; [congruence | exact I].
      * auto.
Qed.

Lemma get_In (m : t K V) (k : K) (v : V) : get m k = Some v -> In (k, v) m.
Proof.
  induction m as [|[k0 v0] m IH]; simpl; [discriminate|].
  destruct (key_eqb k k0) eqn:E.
  - apply key_eqb_eq in E; subst. intros [= ->]. now left.
  - intros G. right. now apply IH.
Qed.

Lemma set_nonempty (m : t K V) (k : K) (v : V) : set m k v <> [].
Proof. destruct m as [|[k0 v0] m]; simpl; [|destruct (key_eqb k k0)]; discriminate. Qed.

Lemma size_zero (m : t K V) : size m = 0 <-> m = [].
Proof. unfold size. destruct m; simpl; split; congruence. Qed.

Lemma get_nil_none (m : t K V) : (forall k, get m k = None) -> m = [].
Proof.
  destruct m as [|[k0 v0] m]; [reflexivity|].
  intros A. specialize (A k0). simpl in A. rewrite key_eqb_refl in A. discriminate.
Qed.

Lemma keys_set_unique (m : t K V) (k : K) (v : V) :
  NoDup (keys m) -> NoDup (keys (set m k v)).
Proof.
  unfold keys. induction m as [|[k0 v0] m IH]; simpl; intros N.
  - constructor; [simpl; tauto | constructor].
  - inversion N as [|? ? Hn N']; subst.
    destruct (key_eqb k k0) eqn:E; simpl.
    + constructor; assumption.
    + constructor; [|now apply IH].
      intros I. apply key_eqb_neq in E.
      apply (in_keys_get (set m k v) k0) in I. rewrite get_set_ne in I by congruence.
      apply in_keys_get in I. contradiction.
Qed.

Lemma keys_delete_unique (m : t K V) (k : K) :
  NoDup (keys m) -> NoDup (keys (delete m k)).
Proof.
  unfold keys. induction m as [|[k0 v0] m IH]; simpl; intros N.
  - constructor.
  - inversion N as [|? ? Hn N']; subst.
    destruct (key_eqb k k0) eqn:E; simpl; [now apply IH|].
    constructor; [|now apply IH].
    intros I. apply (in_keys_get (delete m k) k0) in I.
    apply key_eqb_neq in E. rewrite get_delete_ne in I by congruence.
    apply in_keys_get in I. contradiction.
Qed.

Lemma set_set (m : t K V) (k : K) (v v' : V) : set (set m k v) k v' = set m k v'.
Proof.
  induction m as [|[k0 v0] m IH]; simpl.
  - now rewrite key_eqb_refl.
  - destruct (key_eqb k k0) eqn:E; simpl; rewrite E; [reflexivity|].
    now rewrite IH.
Qed.

Lemma has_get (m : t K V) (k : K) : has m k = true <-> get m k <> None.
Proof. unfold has. destruct (get m k); split; congruence. Qed.

Lemma delete_keys (m : t K V) (k : K) : ~ In k (keys (delete m k)).
Proof. intros I. apply in_keys_get in I. now rewrite get_delete_eq in I. Qed.

Lemma In_delete (m : t K V) (k k0 : K) (v : V) :
  In (k, v) (delete m k0) <-> In (k, v) m /\ k <> k0.
Proof.
  induction m as [|[k1 v1] m IH]; simpl.
  - tauto.
  - destruct (key_eqb k0 k1) eqn:E.
    + apply key_eqb_eq in E. subst k1. rewrite IH. split.
      * intros [I N]. split; [now right | exact N].
      * intros [[[= <- <-]|I] N]; [congruence | now split].
    + apply key_eqb_neq in E. simpl. rewrite IH. split.
      * intros [[= <- <-]|[I N]]; [split; [now left | congruence] | split; [now right | exact N]].
      * intros [[Eq|I] N]; [now left | right; now split].
Qed.

Lemma In_set_ne (m : t K V) (k k0 : K) (v v0 : V) :
  In (k, v) (set m k0 v0) -> k <> k0 -> In (k, v) m.
Proof.
  induction m as [|[k1 v1] m IH]; simpl.
  - intros [[= <- <-]|[]] N. congruence.
  - destruct (key_eqb k0 k1) eqn:E; simpl.
    + apply key_eqb_eq in E. subst k1.
      intros [[= <- <-]|I] N; [congruence | now right].
    + intros [Eq|I] N; [now left | right; now apply IH].
Qed.

Lemma set_absent (m : t K V) (k : K) (v : V) :
  get m k = None -> set m k v = m ++ [(k, v)].
Proof.
  induction m as [|[k1 v1] m IH]; simpl; [reflexivity|].
  destruct (key_eqb k k1); [discriminate|].
  intros G. now rewrite IH.
Qed.

Lemma set_same (m : t K V) (k : K) (v : V) : get m k = Some v -> set m k v = m.
Proof.
  induction m as [|[k1 v1] m IH]; simpl; [discriminate|].
  destruct (key_eqb k k1).
  - now intros [= ->].
  - intros G. now rewrite IH.
Qed.

Lemma keys_set_present (m : t K V) (k : K) (v : V) :
  get m k <> None -> keys (set m k v) = keys m.
Proof.
  unfold keys. induction m as [|[k1 v1] m IH]; simpl; [congruence|].
  destruct (key_eqb k k1); simpl; [reflexivity|].
  intros G. now rewrite IH.
Qed.

Lemma delete_set (m : t K V) (k : K) (v : V) : delete (set m k v) k = delete m k.
Proof.
  induction m as [|[k1 v1] m IH]; simpl.
  - now rewrite key_eqb_refl.
  - destruct (key_eqb k k1) eqn:E; simpl; rewrite E; [reflexivity|].
    now rewrite IH.
Qed.

Lemma In_set (m : t K V) (k k0 : K) (v v0 : V) :
  In (k, v) (set m k0 v0) -> (k = k0 /\ v = v0) \/ In (k, v) m.
Proof.
  induction m as [|[k1 v1] m IH]; simpl.
  - intros [[= <- <-]|[]]. now left.
  - destruct (key_eqb k0 k1) eqn:E; simpl.
    + apply key_eqb_eq in E. subst k1.
      intros [[= <- <-]|I]; [now left | right; now right].
    + intros [Eq|I]; [right; now left|].
      destruct (IH I) as [L|R]; [now left | right; now right].
Qed.

End Facts.
End JsMapFacts.

(** ** Frame facts: what each primitive leaves alone *)

Section Primitives.

Lemma with_outbox_same (w : World) : with_outbox w (outbox w) = w.
Proof. destruct w; reflexivity. Qed.

Lemma sendMessage_outbox (w : World) (ws : Handle) (message : ServerMessage) :
  sendMessage w ws message =
  with_outbox w (outbox w ++ if isOpen w ws then [(ws, message)] else []).
Proof.
  unfold sendMessage. destruct (isOpen w ws); [reflexivity|].
  rewrite app_nil_r. symmetry. apply with_outbox_same.
Qed.

Lemma forEach_send (message : ServerMessage) (excludeUserId : option string)
  (roomUsers : JsMap.t string RoomConnection) (w : World) :
  JsMap.forEach roomUsers
    (fun acc connection userId =>
       if negb (excluded userId excludeUserId) && isOpen acc (rc_ws connection)
       then sendMessage acc (rc_ws connection) message
       else acc) w
  = with_outbox w
      (outbox w ++ map (fun h => (h, message)) (recipients w roomUsers excludeUserId)).
Proof.
  unfold JsMap.forEach, recipients.
  revert w. induction roomUsers as [|[userId connection] rest IH]; intros w; simpl.
  - rewrite app_nil_r. symmetry. apply with_outbox_same.
  - destruct (negb (excluded userId excludeUserId) && isOpen w (rc_ws connection)) eqn:E.
    + apply andb_true_iff in E. destruct E as [_ E].
      rewrite IH. unfold sendMessage. rewrite E. simpl.
      unfold with_outbox; simpl. now rewrite <- app_assoc.
    + apply IH.
Qed.

(** A broadcast only appends to the outbox: one frame per recipient. *)
Lemma broadcastToRoom_outbox (w : World) (roomId : string) (message : ServerMessage)
  (excludeUserId : option string) :
  broadcastToRoom w roomId message excludeUserId =
  with_outbox w
    (outbox w ++ map (fun h => (h, message))
                     (recipients w (roomUsersOf w roomId) excludeUserId)).
Proof.
  unfold broadcastToRoom, roomUsersOf.
  destruct (JsMap.get (roomConnections w) roomId) as [roomUsers|].
  - apply forEach_send.
  - simpl. rewrite app_nil_r. symmetry. apply with_outbox_same.
Qed.

Lemma recipients_In (w : World) (roomUsers : JsMap.t string RoomConnection)
  (excludeUserId : option string) (h : Handle) :
  In h (recipients w roomUsers excludeUserId) <->
  exists userId connection,
    In (userId, connection) roomUsers /\ rc_ws connection = h
    /\ excluded userId excludeUserId = false /\ isOpen w h = true.
Proof.
  unfold recipients. rewrite in_map_iff. split.
  - intros [[userId connection] [E I]]. apply filter_In in I. destruct I as [I C].
    simpl in *. apply andb_true_iff in C. destruct C as [C1 C2].
    exists userId, connection. subst h. repeat split; try assumption.
    now apply negb_true_iff.
  - intros (userId & connection & I & E & X & O).
    exists (userId, connection). split; [exact E|].
    apply filter_In. split; [exact I|]. simpl. rewrite X, E, O. reflexivity.
Qed.

Lemma sent_since_app (w w' : World) (sent : list (Handle * ServerMessage)) :
  outbox w' = outbox w ++ sent -> sent_since w w' = sent.
Proof.
  unfold sent_since. intros ->.
  rewrite skipn_app, skipn_all, Nat.sub_diag. reflexivity.
Qed.

End Primitives.

(** ** The handlers in closed form *)

Section Handlers.
Variable jwt_verify : string -> option (string * string).
Import JsMapFacts.

Lemma isOpen_ext (w w' : World) :
  (forall h, isOpen w' h = isOpen w h) ->
  forall roomUsers excludeUserId,
    recipients w' roomUsers excludeUserId = recipients w roomUsers excludeUserId.
Proof.
  intros E roomUsers excludeUserId. unfold recipients. f_equal.
  apply filter_ext. intros kv. now rewrite E.
Qed.

Lemma socket_update (w : World) (ws h : Handle)
  (f : ExtendedWebSocket -> ExtendedWebSocket) :
  socket (update_socket w ws f) h = if Nat.eqb h ws then f (socket w ws) else socket w h.
Proof.
  unfold socket, update_socket. simpl sockets. rewrite get_set.
  change (key_eqb h ws) with (Nat.eqb h ws).
  destruct (Nat.eqb h ws); reflexivity.
Qed.

Lemma isOpen_update (w : World) (ws h : Handle)
  (f : ExtendedWebSocket -> ExtendedWebSocket) :
  (forall s, ws_readyState (f s) = ws_readyState s) ->
  isOpen (update_socket w ws f) h = isOpen w h.
Proof.
  intros P. unfold isOpen. rewrite socket_update.
  destruct (Nat.eqb h ws) eqn:E; [|reflexivity].
  apply Nat.eqb_eq in E. subst. now rewrite P.
Qed.

Lemma World_ext (a b : World) :
  sockets a = sockets b -> connections a = connections b ->
  roomConnections a = roomConnections b -> outbox a = outbox b ->
  logs a = logs b -> a = b.
Proof. destruct a, b; simpl; intros; subst; reflexivity. Qed.

Ltac fields :=
  cbn [sockets connections roomConnections outbox logs with_sockets
       with_connections with_roomConnections with_outbox with_logs log
       update_socket roomUsersOf].

Lemma isOpen_sockets (w w' : World) (h : Handle) :
  sockets w' = sockets w -> isOpen w' h = isOpen w h.
Proof. unfold isOpen, socket. now intros ->. Qed.

Lemma recipients_sockets (w w' : World) roomUsers excludeUserId :
  sockets w' = sockets w ->
  recipients w' roomUsers excludeUserId = recipients w roomUsers excludeUserId.
Proof. intros E. apply isOpen_ext. intros h. now apply isOpen_sockets. Qed.

Lemma handleJoinRoom_verified (w : World) (ws : Handle) (message : JoinRoomMessage)
  (now : Date) (userId username : string) :
  jwt_verify (jr_token message) = Some (userId, username) ->
  let roomId := jr_roomId message in
  let roomUsers :=
    JsMap.set (roomUsersOf w roomId) userId
      {| rc_userId := userId; rc_username := username; rc_ws := ws;
         rc_joinedAt := now |} in
  handleJoinRoom jwt_verify w ws message now =
  {| sockets :=
       JsMap.set (sockets w) ws
         {| ws_userId := Some userId; ws_roomId := Some roomId;
            ws_isAlive := ws_isAlive (socket w ws);
            ws_readyState := ws_readyState (socket w ws) |};
     connections := JsMap.set (connections w) userId ws;
     roomConnections := JsMap.set (roomConnections w) roomId roomUsers;
     outbox :=
       outbox w
       ++ map (fun h => (h, USER_JOINED roomId userId username now))
              (recipients w roomUsers (Some userId))
       ++ (if isOpen w ws
           then [(ws, ROOM_STATE roomId (currentUsers roomUsers) now)] else []);
     logs := logs w ++ [(LogInfo, ("User " ++ username ++ " joined room " ++ roomId)%string)] |}.
Proof.
  intros V roomId roomUsers. unfold handleJoinRoom. rewrite V. fold roomId.
  set (bind := fun s : ExtendedWebSocket =>
         {| ws_userId := Some userId; ws_roomId := Some roomId;
            ws_isAlive := ws_isAlive s; ws_readyState := ws_readyState s |}).
  assert (O : forall h, isOpen (update_socket w ws bind) h = isOpen w h)
    by (intros h; now apply isOpen_update).
  subst roomUsers.
  cbv zeta. rewrite sendMessage_outbox, broadcastToRoom_outbox.
  destruct (JsMap.has (roomConnections w) roomId) eqn:Hhas;
    fields; rewrite ?Hhas; apply World_ext; fields; try reflexivity;
    rewrite ?(@isOpen_sockets (update_socket w ws bind)) by reflexivity;
    rewrite ?(@recipients_sockets (update_socket w ws bind)) by reflexivity;
    rewrite ?O, ?(@isOpen_ext _ _ O);
    unfold roomUsersOf; fields; rewrite ?get_set_eq.
  - now rewrite app_assoc.
  - unfold JsMap.has in Hhas.
    destruct (JsMap.get (roomConnections w) roomId); [discriminate|].
    now rewrite set_set.
  - unfold JsMap.has in Hhas.
    destruct (JsMap.get (roomConnections w) roomId); [discriminate|].
    now rewrite app_assoc.
Qed.

(** A JoinRoom whose credential does not verify. *)
Lemma handleJoinRoom_rejected (w : World) (ws : Handle) (message : JoinRoomMessage)
  (now : Date) :
  jwt_verify (jr_token message) = None ->
  handleJoinRoom jwt_verify w ws message now =
  {| sockets := sockets w; connections := connections w;
     roomConnections := roomConnections w;
     outbox := outbox w ++ (if isOpen w ws
                            then [(ws, ERROR "JOIN_ROOM_FAILED" "Failed to join room" now)]
                            else []);
     logs := logs w ++ [(LogError, "Error joining room:")] |}.
Proof.
  intros V. unfold handleJoinRoom, sendError. rewrite V. cbv zeta.
  rewrite sendMessage_outbox. reflexivity.
Qed.

(** Both handlers are their common block followed by the registry and
    binding updates. *)
Lemma handleLeaveRoom_block (w : World) (ws : Handle) (message : LeaveRoomMessage)
  (now : Date) :
  handleLeaveRoom w ws message now =
  match bound (socket w ws) with
  | None => sendError w ws "NOT_IN_ROOM" "Not currently in a room" now
  | Some (userId, roomId) =>
      let w1 := removeFromRoom w userId roomId now in
      let w2 := with_connections w1 (JsMap.delete (connections w1) userId) in
      let w3 := update_socket w2 ws (fun s =>
                  {| ws_userId := None; ws_roomId := None;
                     ws_isAlive := ws_isAlive s; ws_readyState := ws_readyState s |}) in
      log w3 LogInfo ("User left room " ++ lr_roomId message)
  end.
Proof. reflexivity. Qed.

Lemma handleDisconnection_block (w : World) (ws : Handle) (now : Date) :
  handleDisconnection w ws now =
  match truthy (ws_userId (socket w ws)) with
  | Some userId =>
      let w1 := match truthy (ws_roomId (socket w ws)) with
                | Some roomId => removeFromRoom w userId roomId now
                | None => w
                end in
      let w2 := with_connections w1 (JsMap.delete (connections w1) userId) in
      log w2 LogInfo ("User " ++ userId ++ " disconnected")
  | None => w
  end.
Proof. reflexivity. Qed.

(** The shared leave block when the user has an entry in the room. *)
Lemma removeFromRoom_present (w : World) (userId roomId : string) (now : Date)
  (roomUsers : JsMap.t string RoomConnection) (userConnection : RoomConnection) :
  JsMap.get (roomConnections w) roomId = Some roomUsers ->
  JsMap.get roomUsers userId = Some userConnection ->
  let others := JsMap.delete roomUsers userId in
  removeFromRoom w userId roomId now =
  {| sockets := sockets w; connections := connections w;
     roomConnections :=
       if Nat.eqb (JsMap.size others) 0
       then JsMap.delete (JsMap.set (roomConnections w) roomId others) roomId
       else JsMap.set (roomConnections w) roomId others;
     outbox :=
       outbox w
       ++ map (fun h => (h, USER_LEFT roomId userId (rc_username userConnection) now))
              (recipients w others (Some userId));
     logs := logs w |}.
Proof.
  intros R U others. unfold removeFromRoom. rewrite R, U. cbv zeta.
  rewrite broadcastToRoom_outbox. unfold roomUsersOf. fields.
  rewrite get_set_eq. fold others.
  rewrite (@recipients_sockets w) by reflexivity.
  destruct (Nat.eqb (JsMap.size others) 0); reflexivity.
Qed.

(** ... and when the user has none: nothing happens. *)
Lemma removeFromRoom_absent (w : World) (userId roomId : string) (now : Date) :
  JsMap.get (roomUsersOf w roomId) userId = None ->
  removeFromRoom w userId roomId now = w.
Proof.
  unfold removeFromRoom, roomUsersOf.
  destruct (JsMap.get (roomConnections w) roomId) as [roomUsers|]; [|reflexivity].
  now intros ->.
Qed.


(** ** Membership after each handler *)

Lemma members_In (w : World) (roomId userId : string) :
  In userId (members w roomId) <-> JsMap.has (roomUsersOf w roomId) userId = true.
Proof. unfold members. rewrite in_keys_get, has_get. reflexivity. Qed.

Lemma roomUsersOf_rooms (w w' : World) (roomId : string) :
  roomConnections w' = roomConnections w -> roomUsersOf w' roomId = roomUsersOf w roomId.
Proof. unfold roomUsersOf. now intros ->. Qed.

Lemma rooms_sendMessage (w : World) ws message :
  roomConnections (sendMessage w ws message) = roomConnections w.
Proof. now rewrite sendMessage_outbox. Qed.

Lemma rooms_broadcastToRoom (w : World) roomId message excludeUserId :
  roomConnections (broadcastToRoom w roomId message excludeUserId) = roomConnections w.
Proof. now rewrite broadcastToRoom_outbox. Qed.

Lemma rooms_terminate (w : World) ws : roomConnections (terminate w ws) = roomConnections w.
Proof. unfold terminate. destruct (ws_readyState (socket w ws)); reflexivity. Qed.

Lemma has_join (w : World) (ws : Handle) (message : JoinRoomMessage) (now : Date)
  (roomId userId : string) :
  JsMap.has (roomUsersOf (handleJoinRoom jwt_verify w ws message now) roomId) userId =
  match jwt_verify (jr_token message) with
  | Some (u, _) => String.eqb u userId && String.eqb (jr_roomId message) roomId
  | None => false
  end
  || JsMap.has (roomUsersOf w roomId) userId.
Proof.
  destruct (jwt_verify (jr_token message)) as [[u name]|] eqn:V.
  - rewrite (handleJoinRoom_verified w ws _ now _ _ V).
    unfold roomUsersOf at 1. fields. unfold JsMap.has. rewrite get_set.
    change (key_eqb roomId (jr_roomId message))
      with (String.eqb roomId (jr_roomId message)).
    rewrite (String.eqb_sym (jr_roomId message) roomId).
    destruct (String.eqb roomId (jr_roomId message)) eqn:E.
    + apply String.eqb_eq in E. subst roomId. rewrite get_set.
      change (key_eqb userId u) with (String.eqb userId u).
      rewrite (String.eqb_sym u userId).
      destruct (String.eqb userId u); simpl; reflexivity.
    + rewrite andb_false_r. reflexivity.
  - rewrite (handleJoinRoom_rejected w ws _ now V). reflexivity.
Qed.

Lemma has_removeFromRoom (w : World) (u r : string) (now : Date)
  (roomId userId : string) :
  JsMap.has (roomUsersOf (removeFromRoom w u r now) roomId) userId =
  JsMap.has (roomUsersOf w roomId) userId
  && negb (String.eqb u userId && String.eqb r roomId).
Proof.
  destruct (JsMap.get (roomUsersOf w r) u) as [userConnection|] eqn:U.
  - unfold roomUsersOf in U.
    destruct (JsMap.get (roomConnections w) r) as [roomUsers|] eqn:R; [|discriminate].
    rewrite (removeFromRoom_present w u r now _ _ R U).
    unfold roomUsersOf at 1. fields. unfold JsMap.has.
    destruct (String.eqb r roomId) eqn:E.
    + apply String.eqb_eq in E. subst roomId.
      unfold roomUsersOf. rewrite R. rewrite andb_true_r.
      destruct (Nat.eqb (JsMap.size (JsMap.delete roomUsers u)) 0) eqn:Z.
      * rewrite get_delete_eq. apply Nat.eqb_eq, size_zero in Z.
        destruct (String.eqb u userId) eqn:E'.
        -- now rewrite andb_false_r.
        -- apply String.eqb_neq in E'. rewrite andb_true_r.
           rewrite <- (get_delete_ne roomUsers u userId) by congruence.
           rewrite Z. reflexivity.
      * rewrite get_set_eq, get_delete.
        change (key_eqb userId u) with (String.eqb userId u).
        rewrite (String.eqb_sym userId u).
        destruct (String.eqb u userId); simpl.
        -- now rewrite andb_false_r.
        -- now rewrite andb_true_r.
    + rewrite andb_false_r. simpl. rewrite andb_true_r.
      apply String.eqb_neq in E. unfold roomUsersOf.
      destruct (Nat.eqb (JsMap.size (JsMap.delete roomUsers u)) 0);
        rewrite ?get_delete_ne, get_set_ne by congruence; reflexivity.
  - rewrite removeFromRoom_absent by exact U.
    destruct (String.eqb u userId && String.eqb r roomId) eqn:E.
    + apply andb_true_iff in E. destruct E as [E1 E2].
      apply String.eqb_eq in E1, E2. subst. unfold JsMap.has. now rewrite U.
    + now rewrite andb_true_r.
Qed.

Lemma bound_cases (s : ExtendedWebSocket) :
  bound s = match truthy (ws_userId s) with
            | Some u => match truthy (ws_roomId s) with
                        | Some r => Some (u, r)
                        | None => None
                        end
            | None => None
            end.
Proof. unfold bound. destruct (truthy (ws_userId s)), (truthy (ws_roomId s)); reflexivity. Qed.

Lemma has_handleDisconnection (w : World) (ws : Handle) (now : Date)
  (roomId userId : string) :
  JsMap.has (roomUsersOf (handleDisconnection w ws now) roomId) userId =
  JsMap.has (roomUsersOf w roomId) userId
  && negb match bound (socket w ws) with
          | Some (u, r) => String.eqb u userId && String.eqb r roomId
          | None => false
          end.
Proof.
  rewrite handleDisconnection_block, bound_cases.
  destruct (truthy (ws_userId (socket w ws))) as [u|]; [|now rewrite andb_true_r].
  destruct (truthy (ws_roomId (socket w ws))) as [r|]; cbv zeta.
  - rewrite (roomUsersOf_rooms (removeFromRoom w u r now)) by reflexivity.
    apply has_removeFromRoom.
  - rewrite (roomUsersOf_rooms w) by reflexivity. now rewrite andb_true_r.
Qed.

Lemma has_handleLeaveRoom (w : World) (ws : Handle) (message : LeaveRoomMessage)
  (now : Date) (roomId userId : string) :
  JsMap.has (roomUsersOf (handleLeaveRoom w ws message now) roomId) userId =
  JsMap.has (roomUsersOf w roomId) userId
  && negb match bound (socket w ws) with
          | Some (u, r) => String.eqb u userId && String.eqb r roomId
          | None => false
          end.
Proof.
  rewrite handleLeaveRoom_block. unfold sendError.
  destruct (bound (socket w ws)) as [[u r]|]; cbv zeta.
  - rewrite (roomUsersOf_rooms (removeFromRoom w u r now)) by reflexivity.
    apply has_removeFromRoom.
  - rewrite (roomUsersOf_rooms w) by apply rooms_sendMessage. now rewrite andb_true_r.
Qed.

(** Handlers that relay or answer leave the membership table alone. *)
Lemma rooms_relay (w : World) (ws : Handle) (message : WebSocketMessage)
  (now : Date) (random : string) :
  match message with JOIN_ROOM _ | LEAVE_ROOM _ => False | _ => True end ->
  roomConnections (handleMessage jwt_verify w ws message now random) = roomConnections w.
Proof.
  destruct message; simpl; try tauto; intros _;
    unfold handleChatMessage, handleMediaControl, handleScreenShare, sendError;
    try destruct (bound (socket w ws)) as [[u r]|]; cbv zeta;
    rewrite ?sendMessage_outbox, ?broadcastToRoom_outbox; reflexivity.
Qed.

Lemma bound_set_readyState (w : World) (ws ws' : Handle) (st : ReadyState) :
  bound (socket (set_readyState w ws st) ws') = bound (socket w ws').
Proof.
  unfold set_readyState. rewrite socket_update.
  destruct (Nat.eqb ws' ws) eqn:E; [|reflexivity].
  apply Nat.eqb_eq in E. now subst.
Qed.

(** One event: a user is listed for a room afterwards exactly when the
    event made the user join it, or the user was listed and the event did
    not end the session of a socket bound to this user and room. *)
Lemma has_step (w : World) (t : Tick) (roomId userId : string) :
  JsMap.has (roomUsersOf (step jwt_verify w t) roomId) userId =
  match joiner jwt_verify (event t) roomId userId with
  | Some _ => true
  | None => false
  end
  || (JsMap.has (roomUsersOf w roomId) userId
      && negb (ends_binding_of roomId userId w (event t))).
Proof.
  unfold step, ends_binding_of. destruct (event t) as [ws|ws [message|]|ws|ws|ws|ws|ws]; simpl.
  - rewrite andb_true_r.
    destruct (JsMap.has (sockets w) ws); reflexivity.
  - destruct message as [m|m|m|m|m|ts|ty|].
    + simpl. rewrite has_join, andb_true_r.
      destruct (jwt_verify (jr_token m)) as [[u name]|]; [|reflexivity].
      destruct (String.eqb u userId && String.eqb (jr_roomId m) roomId); reflexivity.
    + simpl. apply has_handleLeaveRoom.
    + rewrite (roomUsersOf_rooms w) by (now apply rooms_relay). now rewrite andb_true_r.
    + rewrite (roomUsersOf_rooms w) by (now apply rooms_relay). now rewrite andb_true_r.
    + rewrite (roomUsersOf_rooms w) by (now apply rooms_relay). now rewrite andb_true_r.
    + rewrite (roomUsersOf_rooms w) by (now apply rooms_relay). now rewrite andb_true_r.
    + rewrite (roomUsersOf_rooms w) by (now apply rooms_relay). now rewrite andb_true_r.
    + rewrite (roomUsersOf_rooms w) by (now apply rooms_relay). now rewrite andb_true_r.
  - unfold sendError.
    rewrite (roomUsersOf_rooms w) by (now rewrite rooms_sendMessage).
    now rewrite andb_true_r.
  - now rewrite andb_true_r.
  - rewrite has_handleDisconnection, bound_set_readyState. reflexivity.
  - rewrite has_handleDisconnection. reflexivity.
  - now rewrite andb_true_r.
  - destruct (ws_isAlive (socket w ws)) as [[|]|]; try now rewrite andb_true_r.
    rewrite (roomUsersOf_rooms (handleDisconnection w ws (now t))) by apply rooms_terminate.
    apply has_handleDisconnection.
Qed.


(** ** Rooms are never kept empty *)

Lemma all_nonempty_join (w : World) (ws : Handle) (message : JoinRoomMessage) (now : Date) :
  all_nonempty (roomConnections w) ->
  all_nonempty (roomConnections (handleJoinRoom jwt_verify w ws message now)).
Proof.
  intros A. destruct (jwt_verify (jr_token message)) as [[u name]|] eqn:V.
  - rewrite (handleJoinRoom_verified w ws _ now _ _ V). simpl.
    intros roomId roomUsers. rewrite get_set.
    destruct (key_eqb roomId (jr_roomId message)).
    + intros [= <-]. apply set_nonempty.
    + apply A.
  - now rewrite (handleJoinRoom_rejected w ws _ now V).
Qed.

Lemma all_nonempty_removeFromRoom (w : World) (u r : string) (now : Date) :
  all_nonempty (roomConnections w) ->
  all_nonempty (roomConnections (removeFromRoom w u r now)).
Proof.
  intros A. destruct (JsMap.get (roomUsersOf w r) u) as [userConnection|] eqn:U.
  - unfold roomUsersOf in U.
    destruct (JsMap.get (roomConnections w) r) as [members|] eqn:R; [|discriminate].
    rewrite (removeFromRoom_present w u r now _ _ R U). simpl.
    intros roomId roomUsers.
    destruct (Nat.eqb (JsMap.size (JsMap.delete members u)) 0) eqn:Z.
    + rewrite get_delete. destruct (key_eqb roomId r) eqn:E; [discriminate|].
      apply key_eqb_neq in E. rewrite get_set_ne by exact E. apply A.
    + rewrite get_set. destruct (key_eqb roomId r).
      * intros [= <-] N. apply Nat.eqb_neq in Z. apply Z. now apply size_zero.
      * apply A.
  - now rewrite removeFromRoom_absent.
Qed.

Lemma rooms_handleDisconnection (w : World) (ws : Handle) (now : Date) :
  roomConnections (handleDisconnection w ws now) = roomConnections w
  \/ exists u r, bound (socket w ws) = Some (u, r)
       /\ roomConnections (handleDisconnection w ws now)
          = roomConnections (removeFromRoom w u r now).
Proof.
  rewrite handleDisconnection_block, bound_cases.
  destruct (truthy (ws_userId (socket w ws))) as [u|]; [|now left].
  destruct (truthy (ws_roomId (socket w ws))) as [r|]; [|now left].
  right. now exists u, r.
Qed.

Lemma rooms_handleLeaveRoom (w : World) (ws : Handle) (message : LeaveRoomMessage)
  (now : Date) :
  roomConnections (handleLeaveRoom w ws message now) = roomConnections w
  \/ exists u r, bound (socket w ws) = Some (u, r)
       /\ roomConnections (handleLeaveRoom w ws message now)
          = roomConnections (removeFromRoom w u r now).
Proof.
  rewrite handleLeaveRoom_block. unfold sendError.
  destruct (bound (socket w ws)) as [[u r]|].
  - right. now exists u, r.
  - left. apply rooms_sendMessage.
Qed.

Lemma all_nonempty_handleDisconnection (w : World) (ws : Handle) (now : Date) :
  all_nonempty (roomConnections w) ->
  all_nonempty (roomConnections (handleDisconnection w ws now)).
Proof.
  intros A. destruct (rooms_handleDisconnection w ws now) as [E|(u & r & _ & E)];
    rewrite E; [exact A | now apply all_nonempty_removeFromRoom].
Qed.

Lemma all_nonempty_step (w : World) (t : Tick) :
  all_nonempty (roomConnections w) ->
  all_nonempty (roomConnections (step jwt_verify w t)).
Proof.
  intros A. unfold step.
  destruct (event t) as [ws|ws [message|]|ws|ws|ws|ws|ws].
  - destruct (JsMap.has (sockets w) ws); exact A.
  - destruct message as [m|m|m|m|m|ts|ty|];
      try (rewrite rooms_relay by exact I; exact A).
    + now apply all_nonempty_join.
    + simpl. destruct (rooms_handleLeaveRoom w ws m (now t)) as [E|(u & r & _ & E)];
        rewrite E; [exact A | now apply all_nonempty_removeFromRoom].
  - unfold sendError. now rewrite rooms_sendMessage.
  - exact A.
  - now apply all_nonempty_handleDisconnection.
  - now apply all_nonempty_handleDisconnection.
  - exact A.
  - destruct (ws_isAlive (socket w ws)) as [[|]|]; try exact A.
    rewrite rooms_terminate. now apply all_nonempty_handleDisconnection.
Qed.

Lemma no_empty_room_run (trace : list Tick) (w : World) :
  no_empty_room w -> no_empty_room (run jwt_verify trace w).
Proof.
  revert w. induction trace as [|t rest IH]; intros w A; [exact A|].
  apply IH. now apply all_nonempty_step.
Qed.

Lemma no_empty_room_initial : no_empty_room initial.
Proof. intros roomId roomUsers. discriminate. Qed.


(** ** The member set along a trace *)

(** C1 (as amended).  After every sequence of events, the member set
    recorded for a room is exactly the set of userIds that joined the room
    by a JoinRoom whose credential verified and for which, since that
    join, no leave, disconnect or eviction was handled on a socket that
    was at that moment bound to this userId and this room. *)
Theorem members_joined_and_not_unbound (trace : list Tick) (roomId userId : string) :
  In userId (members (run jwt_verify trace initial) roomId) <->
  joined_and_not_unbound jwt_verify trace roomId userId = true.
Proof.
  rewrite members_In. unfold joined_and_not_unbound.
  set (gone := ends_binding_of roomId userId).
  (* from any starting state: listed at the end iff listed at the start and
     never unbound since, or joined on the way and not unbound since *)
  assert (G : forall w,
    JsMap.has (roomUsersOf (run jwt_verify trace w) roomId) userId
    = (JsMap.has (roomUsersOf w roomId) userId
       && undisturbed jwt_verify gone w trace)
      || joined_and_not_gone jwt_verify (fun _ => gone) w trace roomId userId).
  { induction trace as [|t rest IH]; intros w; simpl.
    - now rewrite andb_true_r, orb_false_r.
    - unfold run in *. simpl. rewrite IH, has_step. fold gone.
      destruct (joiner jwt_verify (event t) roomId userId);
        destruct (JsMap.has (roomUsersOf w roomId) userId);
        destruct (gone w (event t));
        destruct (undisturbed jwt_verify gone (step jwt_verify w t) rest);
        destruct (joined_and_not_gone jwt_verify (fun _ => gone)
                    (step jwt_verify w t) rest roomId userId);
        reflexivity. }
  rewrite G. reflexivity.
Qed.

(** C2.  In every reachable state a room is a key of the table exactly
    when its member map is non-empty; and when the only member of a room
    leaves, the room is gone from the table. *)
Theorem room_listed_iff_nonempty (trace : list Tick) (roomId : string) :
  let w := run jwt_verify trace initial in
  (JsMap.has (roomConnections w) roomId = true <-> members w roomId <> [])
  /\ (forall ws message now userId,
        bound (socket w ws) = Some (userId, roomId) ->
        members w roomId = [userId] ->
        let w' := handleLeaveRoom w ws message now in
        JsMap.has (roomConnections w') roomId = false /\ members w' roomId = []).
Proof.
  intros w. split.
  - assert (A : no_empty_room w)
      by (apply no_empty_room_run, no_empty_room_initial).
    unfold members, roomUsersOf, JsMap.has.
    destruct (JsMap.get (roomConnections w) roomId) as [roomUsers|] eqn:R.
    + split; [intros _ | reflexivity].
      specialize (A _ _ R). destruct roomUsers; [congruence | discriminate].
    + split; [discriminate | intros N; now elim N].
  - intros ws message now userId B M w'.
    assert (H : forall u, JsMap.has (roomUsersOf w' roomId) u = false).
    { intros u. unfold w'. rewrite has_handleLeaveRoom, B.
      destruct (JsMap.has (roomUsersOf w roomId) u) eqn:Hu; [|reflexivity].
      apply members_In in Hu. rewrite M in Hu. destruct Hu as [<-|[]].
      now rewrite !String.eqb_refl. }
    assert (A : no_empty_room w').
    { unfold w', no_empty_room.
      destruct (rooms_handleLeaveRoom w ws message now) as [E|(u & r & _ & E)];
        rewrite E.
      - apply no_empty_room_run, no_empty_room_initial.
      - apply all_nonempty_removeFromRoom, no_empty_room_run, no_empty_room_initial. }
    assert (E : roomUsersOf w' roomId = []).
    { apply get_nil_none. intros u. specialize (H u). unfold JsMap.has in H.
      destruct (JsMap.get (roomUsersOf w' roomId) u); [discriminate | reflexivity]. }
    split.
    + unfold JsMap.has.
      destruct (JsMap.get (roomConnections w') roomId) as [roomUsers|] eqn:R;
        [|reflexivity].
      exfalso. apply (A _ _ R). unfold roomUsersOf in E. now rewrite R in E.
    + unfold members. now rewrite E.
Qed.

(** ** One room per user *)

Lemma joiner_inv (e : Event) (roomId userId : string) (ws : Handle) :
  joiner jwt_verify e roomId userId = Some ws ->
  exists m username,
    e = OnMessage ws (Some (JOIN_ROOM m))
    /\ jwt_verify (jr_token m) = Some (userId, username)
    /\ jr_roomId m = roomId.
Proof.
  destruct e as [h|h [[m|m|m|m|m|ts|ty|]|]|h|h|h|h|h]; simpl; try discriminate.
  destruct (jwt_verify (jr_token m)) as [[u name]|] eqn:V; [|discriminate].
  destruct (String.eqb u userId && String.eqb (jr_roomId m) roomId) eqn:E;
    [|discriminate].
  intros [= <-]. apply andb_true_iff in E. destruct E as [E1 E2].
  apply String.eqb_eq in E1, E2. subst. now exists m, name.
Qed.

Lemma elsewhere_false (w : World) (userId roomId r : string) :
  elsewhere w userId roomId = false ->
  JsMap.has (roomUsersOf w r) userId = true -> r = roomId.
Proof.
  unfold elsewhere, roomUsersOf. intros E Hm.
  destruct (JsMap.get (roomConnections w) r) as [roomUsers|] eqn:R;
    [|discriminate].
  destruct (String.eqb r roomId) eqn:Er; [now apply String.eqb_eq|].
  exfalso. apply get_In in R.
  assert (X : existsb (fun kv => negb (String.eqb (fst kv) roomId)
                                 && JsMap.has (snd kv) userId)
                      (roomConnections w) = true).
  { apply existsb_exists. exists (r, roomUsers). split; [exact R|].
    simpl. now rewrite Er, Hm. }
  congruence.
Qed.

Lemma single_room_step (w : World) (t : Tick) :
  joins_only_when_roomless jwt_verify w [t] = true ->
  single_room w -> single_room (step jwt_verify w t).
Proof.
  intros G S userId r1 r2 I1 I2.
  apply members_In in I1, I2. rewrite has_step in I1, I2.
  simpl in G. rewrite andb_true_r in G.
  destruct (joiner jwt_verify (event t) r1 userId) as [ws1|] eqn:J1;
    destruct (joiner jwt_verify (event t) r2 userId) as [ws2|] eqn:J2;
    simpl in I1, I2.
  - apply joiner_inv in J1, J2.
    destruct J1 as (m1 & n1 & E1 & _ & <-), J2 as (m2 & n2 & E2 & _ & <-).
    rewrite E1 in E2. now injection E2 as [= -> ->].
  - apply joiner_inv in J1. destruct J1 as (m & n & E & V & <-).
    rewrite E, V in G. apply negb_true_iff in G.
    apply andb_true_iff in I2. destruct I2 as [I2 _].
    symmetry. now apply (elsewhere_false w userId (jr_roomId m) r2 G).
  - apply joiner_inv in J2. destruct J2 as (m & n & E & V & <-).
    rewrite E, V in G. apply negb_true_iff in G.
    apply andb_true_iff in I1. destruct I1 as [I1 _].
    now apply (elsewhere_false w userId (jr_roomId m) r1 G).
  - apply andb_true_iff in I1, I2. destruct I1 as [I1 _], I2 as [I2 _].
    apply (S userId); now apply members_In.
Qed.

Lemma single_room_run (trace : list Tick) (w : World) :
  joins_only_when_roomless jwt_verify w trace = true ->
  single_room w -> single_room (run jwt_verify trace w).
Proof.
  revert w. induction trace as [|t rest IH]; intros w G S; [exact S|].
  simpl in G. apply andb_true_iff in G. destruct G as [G1 G2].
  apply IH; [exact G2|]. apply single_room_step; [|exact S].
  simpl. now rewrite G1.
Qed.

(** C3 (as amended).  A userId has at most one membership entry
    system-wide in every state reached by events among which every
    JoinRoom that verifies is handled while its userId has no entry in a
    different room.  The join handler itself leaves the member lists of
    all other rooms as they are, so an entry made earlier in another room
    stays. *)
Theorem single_room_when_joins_are_roomless (trace : list Tick) :
  (joins_only_when_roomless jwt_verify initial trace = true ->
   single_room (run jwt_verify trace initial))
  /\ (forall ws message now other,
        other <> jr_roomId message ->
        let w := run jwt_verify trace initial in
        roomUsersOf (handleJoinRoom jwt_verify w ws message now) other
        = roomUsersOf w other).
Proof.
  split.
  - intros G. apply single_room_run; [exact G|].
    intros userId r1 r2 [].
  - intros ws message now other N w.
    destruct (jwt_verify (jr_token message)) as [[u name]|] eqn:V.
    + rewrite (handleJoinRoom_verified w ws _ now _ _ V).
      unfold roomUsersOf at 1. simpl. now rewrite get_set_ne.
    + now rewrite (handleJoinRoom_rejected w ws _ now V).
Qed.

(** ** What one broadcast delivers to one socket *)

Lemma deliveries_to_app (h : Handle) (a b : list (Handle * ServerMessage)) :
  deliveries_to h (a ++ b) = deliveries_to h a ++ deliveries_to h b.
Proof. unfold deliveries_to. now rewrite filter_app, map_app. Qed.

Lemma deliveries_broadcast (w : World) (roomUsers : JsMap.t string RoomConnection)
  (excludeUserId : option string) (message : ServerMessage) (h : Handle) :
  deliveries_to h (map (fun h' => (h', message))
                       (recipients w roomUsers excludeUserId))
  = map (fun _ => message)
        (filter (fun kv => negb (excluded (fst kv) excludeUserId)
                           && isOpen w (rc_ws (snd kv)))
                (entries_on h roomUsers)).
Proof.
  unfold deliveries_to, recipients, entries_on.
  induction roomUsers as [|[k c] rest IH]; simpl; [reflexivity|].
  destruct (negb (excluded k excludeUserId) && isOpen w (rc_ws c)) eqn:P; simpl;
    destruct (Nat.eqb (rc_ws c) h) eqn:E; simpl; rewrite ?P; simpl;
    now rewrite IH.
Qed.

Lemma deliveries_broadcast_closed (w : World)
  (roomUsers : JsMap.t string RoomConnection) (excludeUserId : option string)
  (message : ServerMessage) (h : Handle) :
  isOpen w h = false ->
  deliveries_to h (map (fun h' => (h', message))
                       (recipients w roomUsers excludeUserId)) = [].
Proof.
  intros C. rewrite deliveries_broadcast. unfold entries_on.
  induction roomUsers as [|[k c] rest IH]; simpl; [reflexivity|].
  destruct (Nat.eqb (rc_ws c) h) eqn:E; [|exact IH].
  apply Nat.eqb_eq in E. simpl. rewrite E, C, andb_false_r. exact IH.
Qed.

Lemma delete_delete (m : JsMap.t string Handle) (k : string) :
  JsMap.delete (JsMap.delete m k) k = JsMap.delete m k.
Proof. apply delete_absent, get_delete_eq. Qed.

(** ** Disconnecting twice *)

Lemma handleDisconnection_bound (w : World) (ws : Handle) (now : Date)
  (userId roomId : string) :
  bound (socket w ws) = Some (userId, roomId) ->
  handleDisconnection w ws now =
  let w1 := removeFromRoom w userId roomId now in
  {| sockets := sockets w1;
     connections := JsMap.delete (connections w1) userId;
     roomConnections := roomConnections w1;
     outbox := outbox w1;
     logs := logs w1 ++ [(LogInfo, ("User " ++ userId ++ " disconnected")%string)] |}.
Proof.
  rewrite bound_cases, handleDisconnection_block.
  destruct (truthy (ws_userId (socket w ws))) as [u|]; [|discriminate].
  destruct (truthy (ws_roomId (socket w ws))) as [r|]; [|discriminate].
  now intros [= -> ->].
Qed.

Lemma sockets_removeFromRoom (w : World) (u r : string) (now : Date) :
  sockets (removeFromRoom w u r now) = sockets w.
Proof.
  destruct (JsMap.get (roomUsersOf w r) u) as [userConnection|] eqn:U.
  - unfold roomUsersOf in U.
    destruct (JsMap.get (roomConnections w) r) as [members|] eqn:R; [|discriminate].
    now rewrite (removeFromRoom_present w u r now _ _ R U).
  - now rewrite removeFromRoom_absent.
Qed.

Lemma connections_removeFromRoom (w : World) (u r : string) (now : Date) :
  connections (removeFromRoom w u r now) = connections w.
Proof.
  destruct (JsMap.get (roomUsersOf w r) u) as [userConnection|] eqn:U.
  - unfold roomUsersOf in U.
    destruct (JsMap.get (roomConnections w) r) as [members|] eqn:R; [|discriminate].
    now rewrite (removeFromRoom_present w u r now _ _ R U).
  - now rewrite removeFromRoom_absent.
Qed.

Lemma outbox_removeFromRoom (w : World) (u r : string) (now : Date)
  (userConnection : RoomConnection) :
  JsMap.get (roomUsersOf w r) u = Some userConnection ->
  outbox (removeFromRoom w u r now) =
  outbox w ++ map (fun h => (h, USER_LEFT r u (rc_username userConnection) now))
                  (recipients w (JsMap.delete (roomUsersOf w r) u) (Some u)).
Proof.
  intros U. unfold roomUsersOf in *.
  destruct (JsMap.get (roomConnections w) r) as [members|] eqn:R; [|discriminate].
  now rewrite (removeFromRoom_present w u r now _ _ R U).
Qed.

(** C4.  For a connection that is a joined member of a room, running the
    disconnect routine twice in a row sends what one broadcast of a single
    UserLeft to the remaining members sends (the second run sends nothing,
    so a remaining member gets the UserLeft once, not twice), leaves
    registry, membership table and socket store as the first run left
    them, and the second run is an ordinary return: the routine is a total
    function with no error result. *)
Theorem handleDisconnection_twice (w : World) (ws : Handle) (now now' : Date)
  (userId roomId : string) (userConnection : RoomConnection) :
  bound (socket w ws) = Some (userId, roomId) ->
  JsMap.get (roomUsersOf w roomId) userId = Some userConnection ->
  let once := handleDisconnection w ws now in
  let twice := handleDisconnection once ws now' in
  let left := USER_LEFT roomId userId (rc_username userConnection) now in
  sent_since w once
    = map (fun h => (h, left))
          (recipients w (JsMap.delete (roomUsersOf w roomId) userId) (Some userId))
  /\ sent_since once twice = []
  /\ sent_since w twice = sent_since w once
  /\ (forall k c,
        entries_on (rc_ws c) (JsMap.delete (roomUsersOf w roomId) userId) = [(k, c)] ->
        deliveries_to (rc_ws c) (sent_since w twice)
        = if isOpen w (rc_ws c) then [left] else [])
  /\ connections twice = connections once
  /\ roomConnections twice = roomConnections once
  /\ sockets twice = sockets once
  /\ ~ In userId (members once roomId)
  /\ JsMap.get (connections once) userId = None.
Proof.
  intros B U once twice left.
  assert (O1 : outbox once = outbox w ++ map (fun h => (h, left))
                 (recipients w (JsMap.delete (roomUsersOf w roomId) userId)
                    (Some userId))).
  { unfold once. rewrite (handleDisconnection_bound w ws now _ _ B). simpl.
    now apply outbox_removeFromRoom. }
  assert (S1 : sockets once = sockets w).
  { unfold once. rewrite (handleDisconnection_bound w ws now _ _ B). simpl.
    apply sockets_removeFromRoom. }
  assert (B1 : bound (socket once ws) = Some (userId, roomId)).
  { unfold socket. rewrite S1. exact B. }
  assert (G1 : JsMap.has (roomUsersOf once roomId) userId = false).
  { unfold once. rewrite has_handleDisconnection, B, !String.eqb_refl.
    apply andb_false_r. }
  assert (A1 : removeFromRoom once userId roomId now' = once).
  { apply removeFromRoom_absent. unfold JsMap.has in G1.
    destruct (JsMap.get (roomUsersOf once roomId) userId); [discriminate|reflexivity]. }
  assert (C1 : connections once = JsMap.delete (connections w) userId).
  { unfold once. rewrite (handleDisconnection_bound w ws now _ _ B). simpl.
    now rewrite connections_removeFromRoom. }
  assert (T : twice = with_logs
                (with_connections once (JsMap.delete (connections once) userId))
                (logs once ++ [(LogInfo, ("User " ++ userId ++ " disconnected")%string)])).
  { unfold twice. rewrite (handleDisconnection_bound once ws now' _ _ B1).
    cbv zeta. rewrite A1. reflexivity. }
  assert (O2 : outbox twice = outbox once) by now rewrite T.
  assert (S1' : sent_since w once = map (fun h => (h, left))
                  (recipients w (JsMap.delete (roomUsersOf w roomId) userId)
                     (Some userId)))
    by now apply sent_since_app.
  assert (S3 : sent_since w twice = sent_since w once)
    by (unfold sent_since; now rewrite O2).
  split; [exact S1'|]. split; [apply sent_since_app; now rewrite O2, app_nil_r|].
  split; [exact S3|]. split.
  { intros k c E. rewrite S3, S1', deliveries_broadcast, E. simpl.
    assert (N : String.eqb k userId = false).
    { apply String.eqb_neq. intros ->.
      apply (delete_keys (roomUsersOf w roomId) userId).
      assert (I : In (userId, c)
                    (entries_on (rc_ws c)
                       (JsMap.delete (roomUsersOf w roomId) userId)))
        by (rewrite E; now left).
      apply filter_In in I. destruct I as [I _].
      apply (in_map fst) in I. exact I. }
    rewrite N. simpl. destruct (isOpen w (rc_ws c)); reflexivity. }
  repeat split.
  - rewrite T. simpl. rewrite C1. apply delete_delete.
  - now rewrite T.
  - now rewrite T.
  - intros I. apply members_In in I. congruence.
  - rewrite C1. apply get_delete_eq.
Qed.

(** ** Joining *)

Lemma currentUsers_ids (roomUsers : JsMap.t string RoomConnection) :
  map ru_userId (currentUsers roomUsers) = map rc_userId (JsMap.values roomUsers).
Proof. unfold currentUsers. rewrite map_map. reflexivity. Qed.

(** C5 (as amended).  For every JoinRoom whose credential verifies,
    handled on an open connection in any state: the frames sent are one
    UserJoined for each member entry other than the joiner's whose socket
    is open, in member order, followed by one RoomState for the joiner.
    So a socket that is open and named by exactly one entry, not the
    joiner's, gets exactly one UserJoined; a socket that is not open gets
    nothing; the joiner's entry is skipped, and a joiner whose socket is
    named by its own entry alone gets the RoomState and nothing else.  The
    RoomState lists the room as it is after the joiner's entry was
    inserted, so the joiner is in it. *)
Theorem handleJoinRoom_notifies (w : World) (ws : Handle) (message : JoinRoomMessage)
  (now : Date) (userId username : string) :
  jwt_verify (jr_token message) = Some (userId, username) ->
  isOpen w ws = true ->
  let roomId := jr_roomId message in
  let w' := handleJoinRoom jwt_verify w ws message now in
  let roomUsers := roomUsersOf w' roomId in
  let joined := USER_JOINED roomId userId username now in
  let state := ROOM_STATE roomId (currentUsers roomUsers) now in
  let own := {| rc_userId := userId; rc_username := username; rc_ws := ws;
                rc_joinedAt := now |} in
  roomUsers = JsMap.set (roomUsersOf w roomId) userId own
  /\ sent_since w w'
     = map (fun h => (h, joined)) (recipients w roomUsers (Some userId))
       ++ [(ws, state)]
  /\ (forall k c, entries_on (rc_ws c) roomUsers = [(k, c)] ->
        k <> userId ->
        deliveries_to (rc_ws c) (sent_since w w')
        = if isOpen w (rc_ws c) then [joined] else [])
  /\ (forall h, isOpen w h = false -> deliveries_to h (sent_since w w') = [])
  /\ (entries_on ws roomUsers = [(userId, own)] ->
      deliveries_to ws (sent_since w w') = [state])
  /\ In userId (map ru_userId (currentUsers roomUsers)).
Proof.
  intros V O roomId w' roomUsers joined state own.
  pose proof (handleJoinRoom_verified w ws message now userId username V) as C.
  cbv zeta in C. fold roomId own in C.
  assert (R : roomUsers = JsMap.set (roomUsersOf w roomId) userId own).
  { unfold roomUsers, w'. rewrite C. unfold roomUsersOf at 1. simpl.
    now rewrite get_set_eq. }
  assert (S : sent_since w w'
              = map (fun h => (h, joined)) (recipients w roomUsers (Some userId))
                ++ [(ws, state)]).
  { apply sent_since_app. unfold w'. rewrite C. simpl. rewrite O.
    unfold state. now rewrite R. }
  assert (Own : deliveries_to ws [(ws, state)] = [state]).
  { unfold deliveries_to. simpl. now rewrite Nat.eqb_refl. }
  split; [exact R|]. split; [exact S|]. repeat split.
  - intros k c E Nk.
    assert (Nw : rc_ws c <> ws).
    { intros W.
      assert (I : In (userId, own) (entries_on (rc_ws c) roomUsers)).
      { apply filter_In. split.
        - rewrite R. apply get_In, get_set_eq.
        - simpl. rewrite W. apply Nat.eqb_refl. }
      rewrite E in I. destruct I as [[= -> _]|[]]. now apply Nk. }
    rewrite S, deliveries_to_app, deliveries_broadcast, E.
    simpl. apply String.eqb_neq in Nk. rewrite Nk. simpl.
    assert (X : deliveries_to (rc_ws c) [(ws, state)] = []).
    { unfold deliveries_to. simpl. apply Nat.eqb_neq in Nw.
      rewrite Nat.eqb_sym, Nw. reflexivity. }
    rewrite X, app_nil_r. destruct (isOpen w (rc_ws c)); reflexivity.
  - intros h Ch. rewrite S, deliveries_to_app, deliveries_broadcast_closed by exact Ch.
    unfold deliveries_to. simpl.
    destruct (Nat.eqb ws h) eqn:E; [|reflexivity].
    apply Nat.eqb_eq in E. congruence.
  - intros E. rewrite S, deliveries_to_app, deliveries_broadcast, E, Own.
    simpl. now rewrite String.eqb_refl.
  - rewrite currentUsers_ids, R. unfold JsMap.values.
    apply in_map_iff. exists own. split; [reflexivity|].
    apply in_map_iff. exists (userId, own). split; [reflexivity|].
    apply get_In, get_set_eq.
Qed.

(** ** Relaying chat, media control and screen sharing *)

(** The frame each relaying handler fans out, and whom it excludes. *)
Lemma relay_outbox (w : World) (ws : Handle) (message : WebSocketMessage)
  (now : Date) (random : string) (userId roomId : string) :
  bound (socket w ws) = Some (userId, roomId) ->
  relayed message = true ->
  exists stamped excludeUserId,
    sent_since w (handleMessage jwt_verify w ws message now random)
    = map (fun h => (h, stamped))
          (recipients w (roomUsersOf w roomId) excludeUserId)
    /\ senderIdOf stamped = Some userId
    /\ timestampOf stamped = now
    /\ excludeUserId = match message with
                       | CHAT_MESSAGE _ => None
                       | _ => Some userId
                       end.
Proof.
  intros B Rl.
  destruct message as [m|m|m|m|m|ts|ty|]; try discriminate; simpl;
    unfold handleChatMessage, handleMediaControl, handleScreenShare;
    rewrite B; cbv zeta; rewrite broadcastToRoom_outbox;
    eexists; eexists; (split; [apply sent_since_app; reflexivity|]);
    repeat split.
Qed.

(** C6.  A chat, media-control or screen-share envelope handled on a
    connection that is joined to a room is delivered: the handler sends
    one frame, the envelope's own content with [senderId] set to the
    userId bound to the sending connection and [timestamp] set to the
    server's clock reading, once for every member entry of the bound room
    that is not excluded and whose socket is open, so every other member
    with an open socket receives it, and it sends nothing else.  The
    handler's whole effect is the same whatever [senderId] and [timestamp]
    the client put in the envelope. *)
Theorem relayed_messages_are_server_stamped (w : World) (ws : Handle)
  (message : WebSocketMessage) (now : Date) (random : string)
  (userId roomId : string) :
  bound (socket w ws) = Some (userId, roomId) ->
  relayed message = true ->
  let w' := handleMessage jwt_verify w ws message now random in
  let excludeUserId := match message with
                       | CHAT_MESSAGE _ => None
                       | _ => Some userId
                       end in
  (exists stamped,
     sent_since w w'
     = map (fun h => (h, stamped))
           (recipients w (roomUsersOf w roomId) excludeUserId)
     /\ carries message stamped
     /\ senderIdOf stamped = Some userId
     /\ timestampOf stamped = now
     /\ (forall k c,
           In (k, c) (roomUsersOf w roomId) -> k <> userId ->
           isOpen w (rc_ws c) = true ->
           In (rc_ws c, stamped) (sent_since w w')))
  /\ Forall (fun hm => senderIdOf (snd hm) = Some userId
                       /\ timestampOf (snd hm) = now)
            (sent_since w w')
  /\ (forall senderId timestamp,
        handleMessage jwt_verify w ws (client_stamped message senderId timestamp)
          now random = w').
Proof.
  intros B Rl w' excludeUserId.
  assert (X : exists stamped,
             sent_since w w'
             = map (fun h => (h, stamped))
                   (recipients w (roomUsersOf w roomId) excludeUserId)
             /\ carries message stamped
             /\ senderIdOf stamped = Some userId
             /\ timestampOf stamped = now).
  { unfold w', excludeUserId.
    destruct message as [m|m|m|m|m|ts|ty|]; try discriminate; simpl;
      unfold handleChatMessage, handleMediaControl, handleScreenShare;
      rewrite B; cbv zeta; rewrite broadcastToRoom_outbox;
      eexists; (split; [apply sent_since_app; reflexivity|]);
      repeat split. }
  destruct X as (stamped & S & C & Hs & Ht).
  split; [|split].
  - exists stamped. do 4 (split; [assumption|]).
    intros k c I N O. rewrite S.
    apply (in_map (fun h => (h, stamped))). apply recipients_In.
    exists k, c. split; [exact I|]. split; [reflexivity|]. split; [|exact O].
    apply String.eqb_neq in N. unfold excludeUserId.
    destruct message; simpl; try exact N; reflexivity.
  - rewrite S. apply Forall_forall. intros [h m] I.
    apply in_map_iff in I. destruct I as (h' & [= <- <-] & _). now split.
  - intros senderId timestamp. unfold w'.
    destruct message as [m|m|m|m|m|ts|ty|]; try discriminate; reflexivity.
Qed.

(** ** Partial fan-out *)

Lemma filter_split_length {A : Type} (p q : A -> bool) (l : list A) :
  length (filter (fun x => p x && q x) l)
  + length (filter (fun x => p x && negb (q x)) l)
  = length (filter p l).
Proof.
  induction l as [|x l IH]; simpl; [reflexivity|].
  destruct (p x), (q x); simpl; lia.
Qed.

(** C7 (as amended).  A broadcast over a room in which some recipient's
    transport is not open sends the frame once for every member entry that
    is not excluded and whose socket is open, returns normally, and does
    nothing else: the entries whose socket is not open are passed over
    silently, nothing is written to the log, and registry, membership
    table and socket store are left untouched, so no cleanup of the
    passed-over connection is done or queued. *)
Theorem broadcastToRoom_skips_closed (w : World) (roomId : string)
  (message : ServerMessage) (excludeUserId : option string) :
  let w' := broadcastToRoom w roomId message excludeUserId in
  let roomUsers := roomUsersOf w roomId in
  let eligible := fun kv : string * RoomConnection =>
                    negb (excluded (fst kv) excludeUserId) in
  sent_since w w'
    = map (fun h => (h, message)) (recipients w roomUsers excludeUserId)
  /\ (forall userId connection,
        In (userId, connection) roomUsers ->
        excluded userId excludeUserId = false ->
        isOpen w (rc_ws connection) = true ->
        In (rc_ws connection, message) (sent_since w w'))
  /\ (forall h, isOpen w h = false -> deliveries_to h (sent_since w w') = [])
  /\ length (sent_since w w')
     + length (filter (fun kv => eligible kv && negb (isOpen w (rc_ws (snd kv))))
                      roomUsers)
     = length (filter eligible roomUsers)
  /\ with_outbox w' (outbox w) = w.
Proof.
  intros w' roomUsers eligible.
  assert (S : sent_since w w'
              = map (fun h => (h, message)) (recipients w roomUsers excludeUserId)).
  { apply sent_since_app. unfold w'. now rewrite broadcastToRoom_outbox. }
  split; [exact S|]. repeat split.
  - intros userId connection I X O. rewrite S.
    apply (in_map (fun h => (h, message))).
    apply recipients_In. now exists userId, connection.
  - intros h C. rewrite S. now apply deliveries_broadcast_closed.
  - rewrite S, length_map. unfold recipients. rewrite length_map.
    apply (filter_split_length eligible (fun kv => isOpen w (rc_ws (snd kv)))).
  - unfold w'. rewrite broadcastToRoom_outbox. destruct w; reflexivity.
Qed.

(** ** A JoinRoom that is refused *)

(** C8 (as amended).  A JoinRoom whose credential fails verification
    sends the originating connection one Error frame with code
    JOIN_ROOM_FAILED when its transport is open and nothing when it is
    not, and in either case changes neither the registry, nor the
    membership table, nor any socket's bindings: an unauthenticated
    connection stays unauthenticated, and a later JoinRoom with a good
    credential joins. *)
Theorem handleJoinRoom_invalid_credential (w : World) (ws : Handle)
  (message : JoinRoomMessage) (now : Date) :
  jwt_verify (jr_token message) = None ->
  let w' := handleJoinRoom jwt_verify w ws message now in
  sent_since w w'
  = (if isOpen w ws
     then [(ws, ERROR "JOIN_ROOM_FAILED" "Failed to join room" now)]
     else [])
  /\ connections w' = connections w
  /\ roomConnections w' = roomConnections w
  /\ sockets w' = sockets w
  /\ (ws_userId (socket w ws) = None -> ws_userId (socket w' ws) = None)
  /\ (forall retry now' userId username,
        jwt_verify (jr_token retry) = Some (userId, username) ->
        In userId (members (handleJoinRoom jwt_verify w' ws retry now')
                           (jr_roomId retry))).
Proof.
  intros V w'. unfold w'. rewrite (handleJoinRoom_rejected w ws message now V).
  split; [now apply sent_since_app|].
  do 3 (split; [reflexivity|]).
  split; [intros U; exact U|].
  intros retry now' userId username V'. apply members_In.
  rewrite has_join, V', !String.eqb_refl. reflexivity.
Qed.

(** ** Leaving *)

Lemma handleLeaveRoom_bound (w : World) (ws : Handle) (message : LeaveRoomMessage)
  (now : Date) (userId roomId : string) :
  bound (socket w ws) = Some (userId, roomId) ->
  handleLeaveRoom w ws message now =
  let w1 := removeFromRoom w userId roomId now in
  {| sockets :=
       JsMap.set (sockets w1) ws
         {| ws_userId := None; ws_roomId := None;
            ws_isAlive := ws_isAlive (socket w1 ws);
            ws_readyState := ws_readyState (socket w1 ws) |};
     connections := JsMap.delete (connections w1) userId;
     roomConnections := roomConnections w1;
     outbox := outbox w1;
     logs := logs w1 ++ [(LogInfo, ("User left room " ++ lr_roomId message)%string)] |}.
Proof. intros B. rewrite handleLeaveRoom_block, B. reflexivity. Qed.

(** C9.  A LeaveRoom handled on a connection bound to a room acts on the
    room bound to the connection, whatever room the envelope names (the
    envelope's roomId only shows in the log line): the one membership
    change is that the bound userId is no longer listed for the bound
    room.  The userId is removed from the registry and both bindings of the
    connection are cleared in every case, also when the bound room has no
    entry for the userId, and then no frame is sent and the membership
    table is left as it was. *)
Theorem handleLeaveRoom_uses_bound_room (w : World) (ws : Handle)
  (message other : LeaveRoomMessage) (now : Date) (userId roomId : string) :
  bound (socket w ws) = Some (userId, roomId) ->
  let w' := handleLeaveRoom w ws message now in
  with_logs w' [] = with_logs (handleLeaveRoom w ws other now) []
  /\ (forall r u,
        JsMap.has (roomUsersOf w' r) u
        = JsMap.has (roomUsersOf w r) u
          && negb (String.eqb userId u && String.eqb roomId r))
  /\ connections w' = JsMap.delete (connections w) userId
  /\ ws_userId (socket w' ws) = None
  /\ ws_roomId (socket w' ws) = None
  /\ (JsMap.get (roomUsersOf w roomId) userId = None ->
      sent_since w w' = [] /\ roomConnections w' = roomConnections w).
Proof.
  intros B w'.
  split.
  { unfold w'. now rewrite !(handleLeaveRoom_bound w ws _ now userId roomId B). }
  split.
  { intros r u. unfold w'. now rewrite has_handleLeaveRoom, B. }
  unfold w'. rewrite (handleLeaveRoom_bound w ws message now userId roomId B).
  cbv zeta.
  split; [simpl; now rewrite connections_removeFromRoom|].
  split; [unfold socket; simpl; now rewrite get_set_eq|].
  split; [unfold socket; simpl; now rewrite get_set_eq|].
  intros U. rewrite removeFromRoom_absent by exact U. split; [|reflexivity].
  apply sent_since_app. simpl. now rewrite app_nil_r.
Qed.

(** ** Who gets a relayed message *)

(** C10 (as amended).  For a connection joined to a room, a ChatMessage
    it sends is delivered once for every member entry of the room whose
    socket is open, the sender's own entry included, so a sender whose open
    socket is named by its own entry alone gets its stamped message back
    exactly once; a MediaControl or ScreenShare message is delivered once
    for every member entry whose socket is open except the entry keyed by
    the sender's userId, so such a sender gets nothing back.  Entries whose
    socket is not open get nothing in either case. *)
Theorem relay_recipients (w : World) (ws : Handle) (now : Date) (random : string)
  (userId roomId : string) :
  bound (socket w ws) = Some (userId, roomId) ->
  let roomUsers := roomUsersOf w roomId in
  let chatMessage := fun m =>
    {| cm_roomId := cm_roomId m; cm_message := cm_message m;
       cm_senderId := Some userId; cm_id := Some (generateMessageId now random);
       cm_timestamp := now |} in
  let controlMessage := fun m =>
    {| mc_roomId := mc_roomId m; mc_action := mc_action m;
       mc_payload := mc_payload m; mc_senderId := Some userId;
       mc_timestamp := now |} in
  let shareMessage := fun m =>
    {| ss_type := ss_type m; ss_roomId := ss_roomId m;
       ss_senderId := Some userId; ss_timestamp := now |} in
  (forall m,
     sent_since w (handleChatMessage w ws m now random)
     = map (fun h => (h, CHAT (chatMessage m))) (recipients w roomUsers None))
  /\ (forall m,
        sent_since w (handleMediaControl w ws m now)
        = map (fun h => (h, MEDIA (controlMessage m)))
              (recipients w roomUsers (Some userId)))
  /\ (forall m,
        sent_since w (handleScreenShare w ws m now)
        = map (fun h => (h, SCREEN (shareMessage m)))
              (recipients w roomUsers (Some userId)))
  /\ (forall h,
        In h (recipients w roomUsers None) <->
        exists k c, In (k, c) roomUsers /\ rc_ws c = h /\ isOpen w h = true)
  /\ (forall h,
        In h (recipients w roomUsers (Some userId)) <->
        exists k c, In (k, c) roomUsers /\ rc_ws c = h /\ k <> userId
                    /\ isOpen w h = true)
  /\ (forall own, entries_on ws roomUsers = [(userId, own)] ->
        isOpen w ws = true ->
        (forall m, deliveries_to ws (sent_since w (handleChatMessage w ws m now random))
                   = [CHAT (chatMessage m)])
        /\ (forall m, deliveries_to ws (sent_since w (handleMediaControl w ws m now))
                      = [])
        /\ (forall m, deliveries_to ws (sent_since w (handleScreenShare w ws m now))
                      = [])).
Proof.
  intros B roomUsers chatMessage controlMessage shareMessage.
  assert (Sc : forall m,
     sent_since w (handleChatMessage w ws m now random)
     = map (fun h => (h, CHAT (chatMessage m))) (recipients w roomUsers None)).
  { intros m. apply sent_since_app. unfold handleChatMessage. rewrite B.
    cbv zeta. now rewrite broadcastToRoom_outbox. }
  assert (Sm : forall m,
     sent_since w (handleMediaControl w ws m now)
     = map (fun h => (h, MEDIA (controlMessage m)))
           (recipients w roomUsers (Some userId))).
  { intros m. apply sent_since_app. unfold handleMediaControl. rewrite B.
    cbv zeta. now rewrite broadcastToRoom_outbox. }
  assert (Ss : forall m,
     sent_since w (handleScreenShare w ws m now)
     = map (fun h => (h, SCREEN (shareMessage m)))
           (recipients w roomUsers (Some userId))).
  { intros m. apply sent_since_app. unfold handleScreenShare. rewrite B.
    cbv zeta. now rewrite broadcastToRoom_outbox. }
  split; [exact Sc|]. split; [exact Sm|]. split; [exact Ss|].
  split; [|split].
  - intros h. rewrite recipients_In. split.
    + intros (k & c & I & E & _ & O). now exists k, c.
    + intros (k & c & I & E & O). now exists k, c.
  - intros h. rewrite recipients_In. split.
    + intros (k & c & I & E & X & O). exists k, c. repeat split; try assumption.
      simpl in X. now apply String.eqb_neq.
    + intros (k & c & I & E & N & O). exists k, c. repeat split; try assumption.
      simpl. now apply String.eqb_neq.
  - intros own E O. repeat split; intros m.
    + rewrite Sc, deliveries_broadcast, E. simpl.
      assert (W : rc_ws own = ws).
      { assert (I : In (userId, own) (entries_on ws roomUsers))
          by (rewrite E; now left).
        apply filter_In in I. now apply Nat.eqb_eq. }
      now rewrite W, O.
    + rewrite Sm, deliveries_broadcast, E. simpl. now rewrite String.eqb_refl.
    + rewrite Ss, deliveries_broadcast, E. simpl. now rewrite String.eqb_refl.
Qed.

(** ** Keys stay unique *)

Lemma tables_relay (w : World) (ws : Handle) (message : WebSocketMessage)
  (now : Date) (random : string) :
  match message with JOIN_ROOM _ | LEAVE_ROOM _ => False | _ => True end ->
  sockets (handleMessage jwt_verify w ws message now random) = sockets w
  /\ connections (handleMessage jwt_verify w ws message now random) = connections w.
Proof.
  destruct message; simpl; try tauto; intros _;
    unfold handleChatMessage, handleMediaControl, handleScreenShare, sendError;
    try destruct (bound (socket w ws)) as [[u r]|]; cbv zeta;
    rewrite ?sendMessage_outbox, ?broadcastToRoom_outbox; split; reflexivity.
Qed.

Lemma unique_keys_update_socket (w : World) (ws : Handle)
  (f : ExtendedWebSocket -> ExtendedWebSocket) :
  unique_keys w -> unique_keys (update_socket w ws f).
Proof.
  intros (S & C & R & M). repeat split; try assumption.
  simpl. now apply keys_set_unique.
Qed.

Lemma unique_keys_tables (w w' : World) :
  sockets w' = sockets w -> connections w' = connections w ->
  roomConnections w' = roomConnections w ->
  unique_keys w -> unique_keys w'.
Proof. unfold unique_keys. now intros -> -> ->. Qed.

Lemma unique_keys_join (w : World) (ws : Handle) (message : JoinRoomMessage)
  (now : Date) :
  unique_keys w -> unique_keys (handleJoinRoom jwt_verify w ws message now).
Proof.
  intros (S & C & R & M).
  destruct (jwt_verify (jr_token message)) as [[u name]|] eqn:V.
  - rewrite (handleJoinRoom_verified w ws _ now _ _ V). cbv zeta.
    repeat split; simpl; try now apply keys_set_unique.
    intros roomId roomUsers. rewrite get_set.
    destruct (key_eqb roomId (jr_roomId message)).
    + intros [= <-]. apply keys_set_unique. unfold roomUsersOf.
      destruct (JsMap.get (roomConnections w) (jr_roomId message)) eqn:G.
      * now apply (M _ _ G).
      * constructor.
    + apply M.
  - rewrite (handleJoinRoom_rejected w ws _ now V). now repeat split.
Qed.

Lemma unique_keys_removeFromRoom (w : World) (u r : string) (now : Date) :
  unique_keys w -> unique_keys (removeFromRoom w u r now).
Proof.
  intros (S & C & R & M).
  destruct (JsMap.get (roomUsersOf w r) u) as [userConnection|] eqn:U.
  - unfold roomUsersOf in U.
    destruct (JsMap.get (roomConnections w) r) as [members|] eqn:G; [|discriminate].
    rewrite (removeFromRoom_present w u r now _ _ G U). cbv zeta.
    repeat split; simpl; try assumption.
    + destruct (Nat.eqb (JsMap.size (JsMap.delete members u)) 0).
      * now apply keys_delete_unique, keys_set_unique.
      * now apply keys_set_unique.
    + intros roomId roomUsers.
      destruct (Nat.eqb (JsMap.size (JsMap.delete members u)) 0).
      * rewrite get_delete. destruct (key_eqb roomId r) eqn:E; [discriminate|].
        apply key_eqb_neq in E. rewrite get_set_ne by exact E. apply M.
      * rewrite get_set. destruct (key_eqb roomId r).
        -- intros [= <-]. apply keys_delete_unique. now apply (M _ _ G).
        -- apply M.
  - rewrite removeFromRoom_absent by exact U. now repeat split.
Qed.

Lemma unique_keys_unregister (w : World) (u : string) :
  unique_keys w ->
  unique_keys (with_connections w (JsMap.delete (connections w) u)).
Proof.
  intros (S & C & R & M). repeat split; try assumption.
  simpl. now apply keys_delete_unique.
Qed.

Lemma unique_keys_log (w : World) (level : LogLevel) (line : string) :
  unique_keys w -> unique_keys (log w level line).
Proof. now apply unique_keys_tables. Qed.

Lemma unique_keys_handleDisconnection (w : World) (ws : Handle) (now : Date) :
  unique_keys w -> unique_keys (handleDisconnection w ws now).
Proof.
  intros U. rewrite handleDisconnection_block.
  destruct (truthy (ws_userId (socket w ws))) as [u|]; [|exact U].
  cbv zeta. apply unique_keys_log, unique_keys_unregister.
  destruct (truthy (ws_roomId (socket w ws))); [|exact U].
  now apply unique_keys_removeFromRoom.
Qed.

Lemma unique_keys_handleLeaveRoom (w : World) (ws : Handle)
  (message : LeaveRoomMessage) (now : Date) :
  unique_keys w -> unique_keys (handleLeaveRoom w ws message now).
Proof.
  intros U. rewrite handleLeaveRoom_block.
  destruct (bound (socket w ws)) as [[u r]|].
  - cbv zeta.
    apply unique_keys_log, unique_keys_update_socket, unique_keys_unregister.
    now apply unique_keys_removeFromRoom.
  - unfold sendError. rewrite sendMessage_outbox.
    now apply (unique_keys_tables w).
Qed.

Lemma unique_keys_step (w : World) (t : Tick) :
  unique_keys w -> unique_keys (step jwt_verify w t).
Proof.
  intros U. unfold step.
  destruct (event t) as [ws|ws [message|]|ws|ws|ws|ws|ws].
  - destruct (JsMap.has (sockets w) ws); [exact U|].
    destruct U as (S & C & R & M). repeat split; try assumption.
    simpl. now apply keys_set_unique.
  - destruct message as [m|m|m|m|m|ts|ty|];
      try (apply (unique_keys_tables w);
           [apply tables_relay; exact I | apply tables_relay; exact I
           | apply rooms_relay; exact I | exact U]).
    + now apply unique_keys_join.
    + now apply unique_keys_handleLeaveRoom.
  - unfold sendError. rewrite sendMessage_outbox. now apply (unique_keys_tables w).
  - now apply unique_keys_update_socket.
  - now apply unique_keys_handleDisconnection, unique_keys_update_socket.
  - apply unique_keys_handleDisconnection. now apply (unique_keys_tables w).
  - now apply unique_keys_update_socket.
  - destruct (ws_isAlive (socket w ws)) as [[|]|];
      try now apply unique_keys_update_socket.
    unfold terminate.
    destruct (ws_readyState (socket (handleDisconnection w ws (now t)) ws));
      try (apply unique_keys_update_socket);
      now apply unique_keys_handleDisconnection.
Qed.

(** In every reachable state the keys of every table are unique, as in the
    JavaScript [Map]s. *)
Lemma unique_keys_run (trace : list Tick) :
  unique_keys (run jwt_verify trace initial).
Proof.
  assert (G : forall w, unique_keys w -> unique_keys (run jwt_verify trace w)).
  { induction trace as [|t rest IH]; intros w U; [exact U|].
    apply IH. now apply unique_keys_step. }
  apply G. repeat split; try constructor. intros roomId roomUsers. discriminate.
Qed.

(** * Further properties of the event loop *)

(** ** Where frames go *)

Lemma sendMessage_In (w : World) (ws h : Handle) (message m : ServerMessage) :
  In (h, m) (sent_since w (sendMessage w ws message)) ->
  h = ws /\ m = message /\ isOpen w ws = true.
Proof.
  rewrite (sent_since_app w (sendMessage w ws message)
             (if isOpen w ws then [(ws, message)] else []))
    by now rewrite sendMessage_outbox.
  destruct (isOpen w ws); [|intros []].
  intros [[= <- <-]|[]]. now repeat split.
Qed.

Lemma sent_since_same_outbox (w w0 w' : World) :
  outbox w0 = outbox w -> sent_since w w' = sent_since w0 w'.
Proof. unfold sent_since. now intros ->. Qed.

Lemma sent_since_to_same_outbox (w w1 w2 : World) :
  outbox w2 = outbox w1 -> sent_since w w2 = sent_since w w1.
Proof. unfold sent_since. now intros ->. Qed.

Lemma removeFromRoom_In (w : World) (u r : string) (now : Date) (h : Handle)
  (m : ServerMessage) :
  In (h, m) (sent_since w (removeFromRoom w u r now)) ->
  isOpen w h = true
  /\ (exists userConnection,
        JsMap.get (roomUsersOf w r) u = Some userConnection
        /\ m = USER_LEFT r u (rc_username userConnection) now)
  /\ exists k c, In (k, c) (roomUsersOf w r) /\ k <> u /\ rc_ws c = h.
Proof.
  destruct (JsMap.get (roomUsersOf w r) u) as [userConnection|] eqn:U.
  - rewrite (sent_since_app w _ _ (outbox_removeFromRoom w u r now _ U)).
    intros I. apply in_map_iff in I. destruct I as (h' & [= <- <-] & I).
    apply recipients_In in I. destruct I as (k & c & I & E & _ & O).
    apply In_delete in I. destruct I as [I N].
    split; [exact O|]. split; [now exists userConnection|]. now exists k, c.
  - rewrite removeFromRoom_absent by exact U.
    rewrite (sent_since_app w w []) by now rewrite app_nil_r. intros [].
Qed.

Lemma handleDisconnection_In (w : World) (ws : Handle) (now : Date) (h : Handle)
  (m : ServerMessage) :
  In (h, m) (sent_since w (handleDisconnection w ws now)) ->
  exists u r,
    bound (socket w ws) = Some (u, r)
    /\ In (h, m) (sent_since w (removeFromRoom w u r now)).
Proof.
  rewrite handleDisconnection_block, bound_cases.
  destruct (truthy (ws_userId (socket w ws))) as [u|].
  - destruct (truthy (ws_roomId (socket w ws))) as [r|]; cbv zeta.
    + rewrite (sent_since_to_same_outbox w (removeFromRoom w u r now))
        by reflexivity.
      intros I. now exists u, r.
    + rewrite (sent_since_to_same_outbox w w) by reflexivity.
      rewrite (sent_since_app w w []) by now rewrite app_nil_r. intros [].
  - rewrite (sent_since_app w w []) by now rewrite app_nil_r. intros [].
Qed.

Lemma isOpen_set_readyState (w : World) (ws h : Handle) (st : ReadyState) :
  st <> OPEN -> isOpen (set_readyState w ws st) h = true -> isOpen w h = true.
Proof.
  intros N. unfold isOpen, set_readyState. rewrite socket_update.
  destruct (Nat.eqb h ws); [|tauto].
  simpl. destruct st; try discriminate. congruence.
Qed.

(** Every frame sent while one event is handled is accounted for: it goes
    to an open socket, and it is a reply to the socket whose envelope is
    being handled, or a presence frame for another member of the room it is
    about, or a relayed frame for a member of the room its sender is bound
    to. *)
Lemma step_frame_cases (w : World) (t : Tick) (h : Handle) (m : ServerMessage) :
  In (h, m) (sent_since w (step jwt_verify w t)) ->
  isOpen w h = true
  /\ match m with
     | ERROR _ _ _ | HEARTBEAT_REPLY _ =>
         exists data, event t = OnMessage h data
     | ROOM_STATE r _ _ =>
         exists jm u n, event t = OnMessage h (Some (JOIN_ROOM jm))
                        /\ jwt_verify (jr_token jm) = Some (u, n)
                        /\ jr_roomId jm = r
     | USER_JOINED r u _ _ =>
         (exists ws, joiner jwt_verify (event t) r u = Some ws)
         /\ exists k c, In (k, c) (roomUsersOf w r) /\ k <> u /\ rc_ws c = h
     | USER_LEFT r u n _ =>
         (exists ws, departing w (event t) = Some ws
                     /\ bound (socket w ws) = Some (u, r))
         /\ (exists c, JsMap.get (roomUsersOf w r) u = Some c /\ n = rc_username c)
         /\ exists k c, In (k, c) (roomUsersOf w r) /\ k <> u /\ rc_ws c = h
     | CHAT _ | MEDIA _ | SCREEN _ =>
         exists ws message u r,
           event t = OnMessage ws (Some message) /\ relayed message = true
           /\ bound (socket w ws) = Some (u, r)
           /\ senderIdOf m = Some u
           /\ exists k c, In (k, c) (roomUsersOf w r) /\ rc_ws c = h
     end.
Proof.
  unfold step.
  destruct (event t) as [ws|ws [message|]|ws|ws|ws|ws|ws] eqn:Ev.
  - (* connection *)
    destruct (JsMap.has (sockets w) ws);
      [rewrite (sent_since_app w w []) by now rewrite app_nil_r
      |rewrite (sent_since_app w _ []) by (simpl; now rewrite app_nil_r)];
      intros [].
  - (* an envelope *)
    destruct message as [jm|lm|cm|mm|sm|ts|ty|]; simpl.
    + (* JoinRoom *)
      destruct (jwt_verify (jr_token jm)) as [[u n]|] eqn:V.
      * rewrite (handleJoinRoom_verified w ws jm (now t) u n V). cbv zeta.
        erewrite sent_since_app by (simpl; reflexivity). intros I.
        apply in_app_or in I. destruct I as [I|I].
        -- apply in_map_iff in I. destruct I as (h' & [= <- <-] & I).
           apply recipients_In in I. destruct I as (k & c & I & E & X & O).
           simpl in X. apply String.eqb_neq in X.
           split; [exact O|]. split.
           ++ exists ws. simpl. now rewrite !String.eqb_refl.
           ++ exists k, c. split; [now apply (In_set_ne _ _ _ _ _ I)|]. now split.
        -- destruct (isOpen w ws) eqn:O; [|destruct I].
           destruct I as [[= <- <-]|[]]. split; [exact O|].
           now exists jm, u, n.
      * rewrite (handleJoinRoom_rejected w ws jm (now t) V).
        erewrite sent_since_app by (simpl; reflexivity).
        destruct (isOpen w ws) eqn:O; [|intros []].
        intros [[= <- <-]|[]]. split; [exact O|]. now eexists.
    + (* LeaveRoom *)
      rewrite handleLeaveRoom_block.
      destruct (bound (socket w ws)) as [[u r]|] eqn:B.
      * cbv zeta.
        rewrite (sent_since_to_same_outbox w (removeFromRoom w u r (now t)))
          by reflexivity.
        intros I. apply removeFromRoom_In in I.
        destruct I as (O & (uc & U & ->) & K). split; [exact O|].
        split; [exists ws; now split|]. split; [now exists uc | exact K].
      * unfold sendError. intros I. apply sendMessage_In in I.
        destruct I as (-> & -> & O). split; [exact O|]. now eexists.
    + (* chat *)
      destruct (bound (socket w ws)) as [[u r]|] eqn:B.
      * destruct (relay_outbox w ws (CHAT_MESSAGE cm) (now t) (random t) u r B eq_refl)
          as (stamped & ex & S & Hs & _ & _).
        simpl in S. rewrite S. intros I.
        apply in_map_iff in I. destruct I as (h' & [= <- <-] & I).
        apply recipients_In in I. destruct I as (k & c & I & E & _ & O).
        split; [exact O|].
        assert (K : exists ws0 message u0 r0,
                  OnMessage ws (Some (CHAT_MESSAGE cm)) = OnMessage ws0 (Some message)
                  /\ relayed message = true
                  /\ bound (socket w ws0) = Some (u0, r0)
                  /\ senderIdOf stamped = Some u0
                  /\ exists k c, In (k, c) (roomUsersOf w r0) /\ rc_ws c = h').
        { exists ws, (CHAT_MESSAGE cm), u, r. repeat split; try assumption.
          now exists k, c. }
        destruct stamped; try discriminate; exact K.
      * unfold handleChatMessage, sendError. rewrite B. intros I.
        apply sendMessage_In in I.
        destruct I as (-> & -> & O). split; [exact O|]. now eexists.
    + (* media control *)
      destruct (bound (socket w ws)) as [[u r]|] eqn:B.
      * destruct (relay_outbox w ws (MEDIA_CONTROL mm) (now t) (random t) u r B eq_refl)
          as (stamped & ex & S & Hs & _ & _).
        simpl in S. rewrite S. intros I.
        apply in_map_iff in I. destruct I as (h' & [= <- <-] & I).
        apply recipients_In in I. destruct I as (k & c & I & E & _ & O).
        split; [exact O|].
        assert (K : exists ws0 message u0 r0,
                  OnMessage ws (Some (MEDIA_CONTROL mm)) = OnMessage ws0 (Some message)
                  /\ relayed message = true
                  /\ bound (socket w ws0) = Some (u0, r0)
                  /\ senderIdOf stamped = Some u0
                  /\ exists k c, In (k, c) (roomUsersOf w r0) /\ rc_ws c = h').
        { exists ws, (MEDIA_CONTROL mm), u, r. repeat split; try assumption.
          now exists k, c. }
        destruct stamped; try discriminate; exact K.
      * unfold handleMediaControl, sendError. rewrite B. intros I.
        apply sendMessage_In in I.
        destruct I as (-> & -> & O). split; [exact O|]. now eexists.
    + (* screen share *)
      destruct (bound (socket w ws)) as [[u r]|] eqn:B.
      * destruct (relay_outbox w ws (SCREEN_SHARE sm) (now t) (random t) u r B eq_refl)
          as (stamped & ex & S & Hs & _ & _).
        simpl in S. rewrite S. intros I.
        apply in_map_iff in I. destruct I as (h' & [= <- <-] & I).
        apply recipients_In in I. destruct I as (k & c & I & E & _ & O).
        split; [exact O|].
        assert (K : exists ws0 message u0 r0,
                  OnMessage ws (Some (SCREEN_SHARE sm)) = OnMessage ws0 (Some message)
                  /\ relayed message = true
                  /\ bound (socket w ws0) = Some (u0, r0)
                  /\ senderIdOf stamped = Some u0
                  /\ exists k c, In (k, c) (roomUsersOf w r0) /\ rc_ws c = h').
        { exists ws, (SCREEN_SHARE sm), u, r. repeat split; try assumption.
          now exists k, c. }
        destruct stamped; try discriminate; exact K.
      * unfold handleScreenShare, sendError. rewrite B. intros I.
        apply sendMessage_In in I.
        destruct I as (-> & -> & O). split; [exact O|]. now eexists.
    + (* heartbeat envelope *)
      intros I. apply sendMessage_In in I.
      destruct I as (-> & -> & O). split; [exact O|]. now eexists.
    + (* unknown type *)
      unfold sendError.
      rewrite (sent_since_same_outbox w (log w LogWarn ("Unknown message type: " ++ ty)))
        by reflexivity.
      intros I. apply sendMessage_In in I.
      destruct I as (-> & -> & O). split; [exact O|]. now eexists.
    + (* null: the catch arm of handleMessage *)
      unfold sendError.
      rewrite (sent_since_same_outbox w
                 (log w LogError "Error handling WebSocket message:"))
        by reflexivity.
      intros I. apply sendMessage_In in I.
      destruct I as (-> & -> & O). split; [exact O|]. now eexists.
  - (* unparseable frame *)
    unfold sendError.
    rewrite (sent_since_same_outbox w (log w LogError "Error parsing WebSocket message:"))
      by reflexivity.
    intros I. apply sendMessage_In in I.
    destruct I as (-> & -> & O). split; [exact O|]. now eexists.
  - (* closing *)
    rewrite (sent_since_app w _ []) by (simpl; now rewrite app_nil_r). intros [].
  - (* close *)
    rewrite (sent_since_same_outbox w (set_readyState w ws CLOSED)) by reflexivity.
    intros I. apply handleDisconnection_In in I. destruct I as (u & r & B & I).
    apply removeFromRoom_In in I. destruct I as (O & (uc & U & ->) & K).
    rewrite bound_set_readyState in B.
    split; [apply (isOpen_set_readyState w ws h CLOSED); [discriminate | exact O]|].
    split; [exists ws; now split|]. split; [now exists uc | exact K].
  - (* error *)
    rewrite (sent_since_same_outbox w (log w LogError "WebSocket error:"))
      by reflexivity.
    intros I. apply handleDisconnection_In in I. destruct I as (u & r & B & I).
    apply removeFromRoom_In in I. destruct I as (O & (uc & U & ->) & K).
    split; [exact O|]. split; [exists ws; now split|]. split; [now exists uc | exact K].
  - (* pong *)
    rewrite (sent_since_app w _ []) by (simpl; now rewrite app_nil_r). intros [].
  - (* heartbeat turn *)
    simpl. destruct (ws_isAlive (socket w ws)) as [[|]|] eqn:A;
      try (rewrite (sent_since_app w _ []) by (simpl; now rewrite app_nil_r);
           intros []).
    rewrite (sent_since_to_same_outbox w (handleDisconnection w ws (now t)))
      by (unfold terminate;
          destruct (ws_readyState (socket (handleDisconnection w ws (now t)) ws));
          reflexivity).
    intros I. apply handleDisconnection_In in I. destruct I as (u & r & B & I).
    apply removeFromRoom_In in I. destruct I as (O & (uc & U & ->) & K).
    split; [exact O|]. split; [exists ws; now split|]. split; [now exists uc | exact K].
Qed.

(** X1.  The server never writes to a socket that is not open: whatever
    the event, every frame handed to [ws.send] while it is handled goes to
    a socket whose [readyState] was OPEN when the event arrived. *)
Theorem frames_only_to_open_sockets (w : World) (t : Tick) (h : Handle)
  (m : ServerMessage) :
  In (h, m) (sent_since w (step jwt_verify w t)) -> isOpen w h = true.
Proof. intros I. now destruct (step_frame_cases w t h m I). Qed.


(** X3.  A UserJoined or UserLeft frame about a room is delivered only to
    sockets named by entries of that very room, and never to the entry of
    the user it is about. *)
Theorem presence_frames_stay_in_room (w : World) (t : Tick) (h : Handle)
  (m : ServerMessage) (roomId userId : string) :
  In (h, m) (sent_since w (step jwt_verify w t)) ->
  presence_of m = Some (roomId, userId) ->
  exists k c, In (k, c) (roomUsersOf w roomId) /\ k <> userId /\ rc_ws c = h.
Proof.
  intros I P. destruct (step_frame_cases w t h m I) as [_ K].
  destruct m; try discriminate; injection P as -> ->.
  - destruct K as [_ K]. exact K.
  - destruct K as (_ & _ & K). exact K.
Qed.

(** X4.  Whatever chat, media-control or screen-share frame a socket is
    ever sent, it was caused by an envelope of that kind from a socket
    bound to a user and a room, it carries that user as [senderId], and the
    receiving socket is named by an entry of that room: relayed frames do
    not cross rooms. *)
Theorem relayed_frames_stay_in_room (w : World) (t : Tick) (h : Handle)
  (m : ServerMessage) :
  In (h, m) (sent_since w (step jwt_verify w t)) ->
  is_reply m = false -> presence_of m = None ->
  exists message userId roomId,
    event t = OnMessage (origin (event t)) (Some message)
    /\ relayed message = true
    /\ bound (socket w (origin (event t))) = Some (userId, roomId)
    /\ senderIdOf m = Some userId
    /\ exists k c, In (k, c) (roomUsersOf w roomId) /\ rc_ws c = h.
Proof.
  intros I R P. destruct (step_frame_cases w t h m I) as [_ K].
  destruct m; try discriminate;
    destruct K as (ws & message & u & r & E & Rl & B & S & Kc);
    exists message, u, r; rewrite E; simpl; now repeat split.
Qed.

Lemma departing_not_joining (w : World) (e : Event) (ws : Handle)
  (roomId userId : string) :
  departing w e = Some ws -> joiner jwt_verify e roomId userId = None.
Proof.
  destruct e as [h|h [[jm|lm|cm|mm|sm|ts|ty|]|]|h|h|h|h|h]; simpl;
    try discriminate; reflexivity.
Qed.

(** X5.  Presence frames agree with the membership table: when a
    UserJoined for a user and a room is sent, the user is a member of that
    room once the event is handled; when a UserLeft is sent, the user was
    a member of that room before the event and is none after it, and the
    frame carries the display name recorded in the user's entry. *)
Theorem presence_frames_match_membership (w : World) (t : Tick) (h : Handle)
  (m : ServerMessage) :
  In (h, m) (sent_since w (step jwt_verify w t)) ->
  match m with
  | USER_JOINED r u _ _ => In u (members (step jwt_verify w t) r)
  | USER_LEFT r u n _ =>
      (exists c, JsMap.get (roomUsersOf w r) u = Some c /\ n = rc_username c)
      /\ In u (members w r)
      /\ ~ In u (members (step jwt_verify w t) r)
  | _ => True
  end.
Proof.
  intros I. destruct (step_frame_cases w t h m I) as [_ K].
  destruct m as [r u n ts|r u n ts| | | | | |]; try exact Logic.I.
  - destruct K as [[ws J] _]. apply members_In. rewrite has_step, J. reflexivity.
  - destruct K as ((ws & D & B) & (c & G & N) & _).
    split; [now exists c|].
    split; [apply members_In; unfold JsMap.has; now rewrite G|].
    rewrite members_In, has_step.
    rewrite (departing_not_joining w (event t) ws r u D).
    unfold ends_binding_of. rewrite D, B, !String.eqb_refl. simpl.
    rewrite andb_false_r. discriminate.
Qed.

(** ** Events that are not about presence *)

(** X6.  Chat, media-control, screen-share, heartbeat, unknown, null and
    unparseable envelopes, new connections, pongs, the start of a closing
    handshake and the heartbeat turn of a socket that answered its probe
    never change the registry, the membership table, or the user and room
    bound to any socket. *)
Theorem bystanders_keep_presence (w : World) (t : Tick) :
  bystander w (event t) = true ->
  let w' := step jwt_verify w t in
  connections w' = connections w
  /\ roomConnections w' = roomConnections w
  /\ forall h, ws_userId (socket w' h) = ws_userId (socket w h)
               /\ ws_roomId (socket w' h) = ws_roomId (socket w h).
Proof.
  unfold step.
  assert (U : forall ws f,
            (forall s, ws_userId (f s) = ws_userId s
                       /\ ws_roomId (f s) = ws_roomId s) ->
            forall h, ws_userId (socket (update_socket w ws f) h)
                      = ws_userId (socket w h)
                      /\ ws_roomId (socket (update_socket w ws f) h)
                         = ws_roomId (socket w h)).
  { intros ws f P h. rewrite socket_update.
    destruct (Nat.eqb h ws) eqn:E; [|now split].
    apply Nat.eqb_eq in E. subst h. apply P. }
  destruct (event t) as [ws|ws [message|]|ws|ws|ws|ws|ws]; simpl;
    try discriminate; intros B.
  - destruct (JsMap.has (sockets w) ws) eqn:Hs; [now repeat split|].
    split; [reflexivity|]. split; [reflexivity|].
    intros h. unfold socket. simpl sockets. rewrite get_set.
    destruct (key_eqb h ws) eqn:E; [|now split].
    apply key_eqb_eq in E. subst h. unfold JsMap.has in Hs.
    destruct (JsMap.get (sockets w) ws); [discriminate | now split].
  - assert (P : match message with
                | JOIN_ROOM _ | LEAVE_ROOM _ => False | _ => True end)
      by (destruct message; try discriminate; exact I).
    destruct (tables_relay w ws message (now t) (random t) P) as [S C].
    split; [exact C|]. split; [now apply rooms_relay|].
    intros h. unfold socket. now rewrite S.
  - unfold sendError. rewrite sendMessage_outbox. now repeat split.
  - split; [reflexivity|]. split; [reflexivity|]. now apply U.
  - split; [reflexivity|]. split; [reflexivity|]. now apply U.
  - destruct (ws_isAlive (socket w ws)) as [[|]|]; try discriminate;
      (split; [reflexivity|]; split; [reflexivity|]; now apply U).
Qed.

(** ** The liveness monitor *)

Lemma evicted (w : World) (ws : Handle) (now : Date) (u r : string) :
  bound (socket w ws) = Some (u, r) ->
  let w' := terminate (handleDisconnection w ws now) ws in
  ~ In u (members w' r)
  /\ JsMap.get (connections w') u = None
  /\ isOpen w' ws = false
  /\ bound (socket w' ws) = Some (u, r)
  /\ ws_isAlive (socket w' ws) = ws_isAlive (socket w ws).
Proof.
  intros B w'.
  set (w1 := handleDisconnection w ws now).
  assert (S1 : sockets w1 = sockets w).
  { unfold w1. rewrite (handleDisconnection_bound w ws now u r B). simpl.
    apply sockets_removeFromRoom. }
  assert (K1 : socket w1 ws = socket w ws) by (unfold socket; now rewrite S1).
  assert (M1 : JsMap.has (roomUsersOf w1 r) u = false).
  { unfold w1. rewrite has_handleDisconnection, B, !String.eqb_refl.
    apply andb_false_r. }
  assert (C1 : JsMap.get (connections w1) u = None).
  { unfold w1. rewrite (handleDisconnection_bound w ws now u r B). simpl.
    apply get_delete_eq. }
  unfold w'. fold w1. unfold terminate.
  destruct (ws_readyState (socket w1 ws)) eqn:St.
  1-3: (split; [intros I; apply members_In in I;
                rewrite (roomUsersOf_rooms w1) in I by reflexivity; congruence|];
        split; [exact C1|];
        unfold isOpen, set_readyState; rewrite socket_update, Nat.eqb_refl, K1;
        now repeat split).
  split; [intros I; apply members_In in I; congruence|].
  split; [exact C1|]. unfold isOpen. rewrite St, K1. now repeat split.
Qed.

(** X7.  A socket that is joined to a room and gets two heartbeat turns
    with no pong in between is evicted: afterwards its user is no longer a
    member of its room nor in the registry, and the socket is not open. *)
Theorem missed_probe_evicts (w : World) (ws : Handle) (first second : Date)
  (rnd : string) (userId roomId : string) :
  bound (socket w ws) = Some (userId, roomId) ->
  let turn := fun n => {| now := n; random := rnd; event := OnHeartbeat ws |} in
  let w' := run jwt_verify [turn first; turn second] w in
  ~ In userId (members w' roomId)
  /\ JsMap.get (connections w') userId = None
  /\ isOpen w' ws = false.
Proof.
  intros B turn w'.
  assert (T : forall v n,
            step jwt_verify v (turn n)
            = match ws_isAlive (socket v ws) with
              | Some false => terminate (handleDisconnection v ws n) ws
              | _ => set_isAlive v ws false
              end) by reflexivity.
  assert (P : forall v,
            bound (socket v ws) = Some (userId, roomId) ->
            ws_isAlive (socket v ws) = Some false ->
            let v' := step jwt_verify v (turn second) in
            ~ In userId (members v' roomId)
            /\ JsMap.get (connections v') userId = None
            /\ isOpen v' ws = false).
  { intros v Bv Av. cbv zeta. rewrite T, Av.
    destruct (evicted v ws second userId roomId Bv) as (M & C & O & _).
    now repeat split. }
  unfold w'. change (run jwt_verify [turn first; turn second] w)
    with (step jwt_verify (step jwt_verify w (turn first)) (turn second)).
  rewrite (T w first).
  destruct (ws_isAlive (socket w ws)) as [[|]|] eqn:A.
  - apply P; unfold set_isAlive; now rewrite socket_update, Nat.eqb_refl.
  - destruct (evicted w ws first userId roomId B) as (_ & _ & _ & B1 & A1).
    apply P; [exact B1 | now rewrite A1].
  - apply P; unfold set_isAlive; now rewrite socket_update, Nat.eqb_refl.
Qed.

(** X8.  A socket that answers every probe is never evicted: through any
    number of rounds of heartbeat turn and pong, the registry and the
    membership table stay as they are, the socket keeps its bindings and
    its ready state, and it ends each round marked alive. *)
Theorem answered_probes_keep_socket (w : World) (ws : Handle) (rounds : list Date)
  (rnd : string) :
  ws_isAlive (socket w ws) <> Some false ->
  let round := fun n => [ {| now := n; random := rnd; event := OnHeartbeat ws |};
                          {| now := n; random := rnd; event := OnPong ws |} ] in
  let w' := run jwt_verify (flat_map round rounds) w in
  connections w' = connections w
  /\ roomConnections w' = roomConnections w
  /\ ws_userId (socket w' ws) = ws_userId (socket w ws)
  /\ ws_roomId (socket w' ws) = ws_roomId (socket w ws)
  /\ ws_readyState (socket w' ws) = ws_readyState (socket w ws)
  /\ ws_isAlive (socket w' ws) <> Some false.
Proof.
  intros A round w'. unfold w'. clear w'. revert w A.
  induction rounds as [|n rest IH]; intros w A.
  - simpl. now repeat split.
  - simpl flat_map. unfold run in *. simpl fold_left.
    set (w2 := step jwt_verify
                 (step jwt_verify w {| now := n; random := rnd; event := OnHeartbeat ws |})
                 {| now := n; random := rnd; event := OnPong ws |}).
    assert (E : w2 = set_isAlive (set_isAlive w ws false) ws true).
    { unfold w2, step. cbn [event now].
      destruct (ws_isAlive (socket w ws)) as [[|]|] eqn:Al;
        [reflexivity | now elim A | reflexivity]. }
    assert (K : socket w2 ws
                = {| ws_userId := ws_userId (socket w ws);
                     ws_roomId := ws_roomId (socket w ws);
                     ws_isAlive := Some true;
                     ws_readyState := ws_readyState (socket w ws) |}).
    { rewrite E. unfold set_isAlive. rewrite !socket_update, !Nat.eqb_refl.
      reflexivity. }
    assert (A2 : ws_isAlive (socket w2 ws) <> Some false)
      by (rewrite K; discriminate).
    destruct (IH w2 A2) as (C & R & U & Rm & St & Al).
    split; [now rewrite C, E|]. split; [now rewrite R, E|].
    split; [now rewrite U, K|]. split; [now rewrite Rm, K|].
    split; [now rewrite St, K | exact Al].
Qed.

(** ** Leaving and being disconnected *)

(** X9.  For a socket bound to a user and a room, a disconnect (close,
    error or eviction) does to the room and to the registry exactly what a
    LeaveRoom envelope does, and sends the same frames: the other members
    see the same UserLeft.  The two differ only in that LeaveRoom also
    clears the socket's bindings. *)
Theorem disconnect_is_leave (w : World) (ws : Handle) (message : LeaveRoomMessage)
  (now : Date) (userId roomId : string) :
  bound (socket w ws) = Some (userId, roomId) ->
  let left := handleLeaveRoom w ws message now in
  let gone := handleDisconnection w ws now in
  roomConnections gone = roomConnections left
  /\ connections gone = connections left
  /\ outbox gone = outbox left
  /\ sockets gone = sockets w
  /\ bound (socket left ws) = None.
Proof.
  intros B left gone. unfold left, gone.
  rewrite (handleLeaveRoom_bound w ws message now userId roomId B).
  rewrite (handleDisconnection_bound w ws now userId roomId B).
  cbv zeta. simpl.
  split; [reflexivity|]. split; [reflexivity|]. split; [reflexivity|].
  split; [apply sockets_removeFromRoom|].
  unfold socket. simpl. now rewrite get_set_eq.
Qed.

(** ** Joining, and leaving again *)

Lemma unbound_socket_eta (s : ExtendedWebSocket) :
  ws_userId s = None -> ws_roomId s = None ->
  {| ws_userId := None; ws_roomId := None; ws_isAlive := ws_isAlive s;
     ws_readyState := ws_readyState s |} = s.
Proof. destruct s; simpl; intros -> ->; reflexivity. Qed.

Lemma truthy_nonempty (s : string) : s <> "" -> truthy (Some s) = Some s.
Proof.
  intros N. simpl. destruct (String.eqb s "") eqn:E; [|reflexivity].
  apply String.eqb_eq in E. contradiction.
Qed.

(** X10.  In any reachable state, when a socket that is bound to nothing
    joins a room as a user who is neither registered nor already a member
    of that room, and then leaves, the socket store, the registry and the
    membership table are back exactly as they were. *)
Theorem join_then_leave_restores (trace : list Tick) (ws : Handle)
  (jm : JoinRoomMessage) (lm : LeaveRoomMessage) (now now' : Date)
  (userId username : string) (s : ExtendedWebSocket) :
  let w := run jwt_verify trace initial in
  jwt_verify (jr_token jm) = Some (userId, username) ->
  userId <> "" -> jr_roomId jm <> "" ->
  JsMap.get (sockets w) ws = Some s ->
  ws_userId s = None -> ws_roomId s = None ->
  JsMap.get (connections w) userId = None ->
  ~ In userId (members w (jr_roomId jm)) ->
  let w' := handleLeaveRoom (handleJoinRoom jwt_verify w ws jm now) ws lm now' in
  sockets w' = sockets w
  /\ connections w' = connections w
  /\ roomConnections w' = roomConnections w.
Proof.
  intros w V Nu Nr Gs Su Sr Gc Nm w'.
  set (r := jr_roomId jm) in *.
  set (own := {| rc_userId := userId; rc_username := username; rc_ws := ws;
                 rc_joinedAt := now |}).
  set (w1 := handleJoinRoom jwt_verify w ws jm now).
  pose proof (handleJoinRoom_verified w ws jm now userId username V) as J.
  cbv zeta in J. fold r own w1 in J.
  assert (K : socket w ws = s) by (unfold socket; now rewrite Gs).
  assert (U : JsMap.get (roomUsersOf w r) userId = None).
  { destruct (JsMap.get (roomUsersOf w r) userId) eqn:G; [|reflexivity].
    elim Nm. apply members_In. unfold JsMap.has. now rewrite G. }
  assert (K1 : socket w1 ws
               = {| ws_userId := Some userId; ws_roomId := Some r;
                    ws_isAlive := ws_isAlive s; ws_readyState := ws_readyState s |}).
  { rewrite J. unfold socket at 1. cbn [sockets]. rewrite get_set_eq. now rewrite K. }
  assert (B1 : bound (socket w1 ws) = Some (userId, r)).
  { rewrite K1. unfold bound. cbn [ws_userId ws_roomId].
    now rewrite (truthy_nonempty userId Nu), (truthy_nonempty r Nr). }
  assert (R1 : JsMap.get (roomConnections w1) r
               = Some (JsMap.set (roomUsersOf w r) userId own)).
  { rewrite J. simpl. apply get_set_eq. }
  assert (O : JsMap.delete (JsMap.set (roomUsersOf w r) userId own) userId
              = roomUsersOf w r).
  { rewrite delete_set. now apply delete_absent. }
  unfold w'. fold w1.
  rewrite (handleLeaveRoom_bound w1 ws lm now' userId r B1).
  rewrite (removeFromRoom_present w1 userId r now' _ own R1 (get_set_eq _ _ _)).
  cbv zeta. cbn [sockets connections roomConnections]. rewrite O.
  split; [|split].
  - unfold socket. cbn [sockets]. rewrite J. cbn [sockets].
    rewrite get_set_eq, set_set. cbn [ws_isAlive ws_readyState]. rewrite K.
    rewrite (unbound_socket_eta s Su Sr). now apply set_same.
  - rewrite J. cbn [connections]. rewrite delete_set. now apply delete_absent.
  - rewrite J. cbn [roomConnections]. rewrite set_set. unfold roomUsersOf.
    destruct (JsMap.get (roomConnections w) r) as [roomUsers|] eqn:G.
    + assert (N : roomUsers <> []).
      { apply (no_empty_room_run trace initial no_empty_room_initial r). exact G. }
      destruct (Nat.eqb (JsMap.size roomUsers) 0) eqn:Z.
      * apply Nat.eqb_eq, size_zero in Z. contradiction.
      * now apply set_same.
    + simpl. rewrite delete_set. now apply delete_absent.
Qed.

(** X11.  A successful JoinRoom puts a user who is new to the room at the
    end of the room's member list and of its snapshot, and leaves a user
    who is already listed at the place they had: member lists and
    snapshots are in order of first joining. *)
Theorem join_keeps_join_order (w : World) (ws : Handle) (jm : JoinRoomMessage)
  (now : Date) (userId username : string) :
  jwt_verify (jr_token jm) = Some (userId, username) ->
  let r := jr_roomId jm in
  let w' := handleJoinRoom jwt_verify w ws jm now in
  (~ In userId (members w r) ->
     members w' r = members w r ++ [userId]
     /\ currentUsers (roomUsersOf w' r)
        = currentUsers (roomUsersOf w r)
          ++ [{| ru_userId := userId; ru_username := username; ru_joinedAt := now |}])
  /\ (In userId (members w r) -> members w' r = members w r).
Proof.
  intros V r w'.
  set (own := {| rc_userId := userId; rc_username := username; rc_ws := ws;
                 rc_joinedAt := now |}).
  assert (R : roomUsersOf w' r = JsMap.set (roomUsersOf w r) userId own).
  { unfold w'. rewrite (handleJoinRoom_verified w ws jm now userId username V).
    unfold roomUsersOf at 1. simpl. now rewrite get_set_eq. }
  unfold members. rewrite R. split.
  - intros N. rewrite in_keys_get in N.
    assert (G : JsMap.get (roomUsersOf w r) userId = None)
      by (destruct (JsMap.get (roomUsersOf w r) userId); [now elim N | reflexivity]).
    rewrite (set_absent _ _ own G). unfold JsMap.keys, currentUsers, JsMap.values.
    rewrite !map_app. now split.
  - intros I. apply keys_set_present. now apply in_keys_get.
Qed.

(** ** Member lists and snapshots *)

(** X12.  In every reachable state no room lists a userId twice: a second
    JoinRoom of the same user into the same room replaces the entry. *)
Theorem members_have_no_duplicates (trace : list Tick) (roomId : string) :
  NoDup (members (run jwt_verify trace initial) roomId).
Proof.
  destruct (unique_keys_run trace) as (_ & _ & _ & M).
  unfold members, roomUsersOf.
  destruct (JsMap.get (roomConnections (run jwt_verify trace initial)) roomId)
    as [roomUsers|] eqn:G.
  - exact (M roomId roomUsers G).
  - constructor.
Qed.

Lemma keyed_join (w : World) (ws : Handle) (message : JoinRoomMessage) (now : Date) :
  keyed (roomConnections w) ->
  keyed (roomConnections (handleJoinRoom jwt_verify w ws message now)).
Proof.
  intros A. destruct (jwt_verify (jr_token message)) as [[u name]|] eqn:V.
  - rewrite (handleJoinRoom_verified w ws _ now _ _ V). simpl.
    intros roomId roomUsers k c. rewrite get_set.
    destruct (key_eqb roomId (jr_roomId message)); [|apply A].
    intros [= <-] I. apply In_set in I. destruct I as [[-> ->]|I]; [reflexivity|].
    unfold roomUsersOf in I.
    destruct (JsMap.get (roomConnections w) (jr_roomId message)) eqn:G;
      [now apply (A _ _ _ _ G) | destruct I].
  - now rewrite (handleJoinRoom_rejected w ws _ now V).
Qed.

Lemma keyed_removeFromRoom (w : World) (u r : string) (now : Date) :
  keyed (roomConnections w) ->
  keyed (roomConnections (removeFromRoom w u r now)).
Proof.
  intros A. destruct (JsMap.get (roomUsersOf w r) u) as [userConnection|] eqn:U.
  - unfold roomUsersOf in U.
    destruct (JsMap.get (roomConnections w) r) as [members|] eqn:R; [|discriminate].
    rewrite (removeFromRoom_present w u r now _ _ R U). simpl.
    intros roomId roomUsers k c.
    destruct (Nat.eqb (JsMap.size (JsMap.delete members u)) 0).
    + rewrite get_delete. destruct (key_eqb roomId r) eqn:E; [discriminate|].
      apply key_eqb_neq in E. rewrite get_set_ne by exact E. apply A.
    + rewrite get_set. destruct (key_eqb roomId r); [|apply A].
      intros [= <-] I. apply In_delete in I. now apply (A _ _ _ _ R).
  - now rewrite removeFromRoom_absent.
Qed.

Lemma keyed_step (w : World) (t : Tick) :
  keyed (roomConnections w) -> keyed (roomConnections (step jwt_verify w t)).
Proof.
  intros A. unfold step.
  assert (D : forall v ws n, roomConnections v = roomConnections w ->
                keyed (roomConnections (handleDisconnection v ws n))).
  { intros v ws n E.
    destruct (rooms_handleDisconnection v ws n) as [E'|(u & r & _ & E')];
      rewrite E'; [|apply keyed_removeFromRoom]; now rewrite E. }
  destruct (event t) as [ws|ws [message|]|ws|ws|ws|ws|ws].
  - destruct (JsMap.has (sockets w) ws); exact A.
  - destruct message as [m|m|m|m|m|ts|ty|];
      try (rewrite rooms_relay by exact I; exact A).
    + now apply keyed_join.
    + simpl. destruct (rooms_handleLeaveRoom w ws m (now t)) as [E|(u & r & _ & E)];
        rewrite E; [exact A | now apply keyed_removeFromRoom].
  - unfold sendError. now rewrite rooms_sendMessage.
  - exact A.
  - now apply D.
  - now apply D.
  - exact A.
  - destruct (ws_isAlive (socket w ws)) as [[|]|]; try exact A.
    rewrite rooms_terminate. now apply D.
Qed.

(** X13.  In every reachable state every entry is filed under its own
    userId, so the user list a RoomState carries names exactly the members
    of the room, in the same order. *)
Theorem snapshot_lists_members (trace : list Tick) (roomId : string) :
  let w := run jwt_verify trace initial in
  entries_keyed_by_userId w
  /\ map ru_userId (currentUsers (roomUsersOf w roomId)) = members w roomId.
Proof.
  intros w.
  assert (A : entries_keyed_by_userId w).
  { unfold w, entries_keyed_by_userId.
    assert (G : forall v, keyed (roomConnections v) ->
                  keyed (roomConnections (run jwt_verify trace v))).
    { induction trace as [|t rest IH]; intros v Kv; [exact Kv|].
      apply IH. now apply keyed_step. }
    apply G. intros roomId0 roomUsers k c. discriminate. }
  split; [exact A|].
  rewrite currentUsers_ids. unfold members, JsMap.values, JsMap.keys, roomUsersOf.
  destruct (JsMap.get (roomConnections w) roomId) as [roomUsers|] eqn:G;
    [|reflexivity].
  rewrite map_map. apply map_ext_in. intros [k c] I. simpl.
  exact (A roomId roomUsers k c G I).
Qed.

(** ** Guards on empty identifiers *)

Lemma bound_nonempty (s : ExtendedWebSocket) (u r : string) :
  bound s = Some (u, r) -> u <> "" /\ r <> "".
Proof.
  unfold bound, truthy.
  destruct (ws_userId s) as [a|]; [|discriminate].
  destruct (String.eqb a "") eqn:Ea; [discriminate|].
  destruct (ws_roomId s) as [b|]; [|discriminate].
  destruct (String.eqb b "") eqn:Eb; [discriminate|].
  intros [= <- <-]. split; now apply String.eqb_neq.
Qed.

(** X14.  The handlers treat an empty userId or roomId on a socket as
    "not in a room", so an entry whose room id or user id is the empty
    string can never be taken out again: once listed, it stays listed
    through every later sequence of events. *)
Theorem empty_id_entry_is_permanent (trace : list Tick) (w : World)
  (roomId userId : string) :
  roomId = "" \/ userId = "" ->
  In userId (members w roomId) ->
  In userId (members (run jwt_verify trace w) roomId).
Proof.
  intros E. revert w. induction trace as [|t rest IH]; intros w I; [exact I|].
  apply IH. apply members_In. rewrite has_step.
  apply members_In in I. rewrite I.
  assert (G : ends_binding_of roomId userId w (event t) = false).
  { unfold ends_binding_of. destruct (departing w (event t)) as [ws|]; [|reflexivity].
    destruct (bound (socket w ws)) as [[u r]|] eqn:B; [|reflexivity].
    destruct (bound_nonempty _ _ _ B) as [Nu Nr].
    destruct E as [-> | ->].
    - apply String.eqb_neq in Nr. rewrite Nr. apply andb_false_r.
    - apply String.eqb_neq in Nu. now rewrite Nu. }
  rewrite G. simpl. apply orb_true_r.
Qed.

(** ** Acting while not in a room *)

(** X15.  A LeaveRoom, chat, media-control or screen-share envelope from a
    socket that has no user or no room bound is answered with one Error
    frame with code NOT_IN_ROOM on that socket (if it is open) and has no
    other effect: nothing is relayed, logged or changed. *)
Theorem not_in_room_is_rejected (w : World) (ws : Handle)
  (message : WebSocketMessage) (now : Date) (random : string) :
  bound (socket w ws) = None ->
  match message with
  | LEAVE_ROOM _ | CHAT_MESSAGE _ | MEDIA_CONTROL _ | SCREEN_SHARE _ => True
  | _ => False
  end ->
  let w' := handleMessage jwt_verify w ws message now random in
  (exists text,
     sent_since w w'
     = if isOpen w ws then [(ws, ERROR "NOT_IN_ROOM" text now)] else [])
  /\ with_outbox w' (outbox w) = w.
Proof.
  intros B K w'. unfold w'.
  destruct message as [m|m|m|m|m|ts|ty|]; try contradiction; simpl;
    unfold handleLeaveRoom, handleChatMessage, handleMediaControl,
           handleScreenShare, sendError;
    rewrite B, sendMessage_outbox;
    (split; [eexists; apply sent_since_app; reflexivity | destruct w; reflexivity]).
Qed.

(** ** Message identifiers *)

Lemma digits_free_of_underscore (d : Decimal.uint) :
  free_of "_"%char (NilEmpty.string_of_uint d).
Proof. induction d; simpl; try split; try discriminate; assumption. Qed.

Lemma decimal_free_of_underscore (n : nat) : free_of "_"%char (decimal n).
Proof.
  unfold decimal, NilZero.string_of_uint.
  destruct (Nat.to_uint n) eqn:E; try (rewrite <- E; apply digits_free_of_underscore).
  simpl. split; [discriminate | exact I].
Qed.

Lemma decimal_inj (a b : nat) : decimal a = decimal b -> a = b.
Proof.
  unfold decimal. intros E. apply DecimalNat.Unsigned.to_uint_inj.
  assert (N : forall n, Nat.to_uint n <> Decimal.Nil).
  { intros n. rewrite <- (DecimalNat.Unsigned.of_to n), DecimalNat.Unsigned.to_of. apply DecimalFacts.unorm_nonnil. }
  pose proof (NilZero.usu _ (N a)) as Ua. pose proof (NilZero.usu _ (N b)) as Ub.
  rewrite E in Ua. congruence.
Qed.

Lemma split_at_delimiter (c : ascii) (a b x y : string) :
  free_of c a -> free_of c b ->
  (a ++ String c x)%string = (b ++ String c y)%string -> a = b /\ x = y.
Proof.
  revert b. induction a as [|ca a IH]; intros [|cb b]; simpl.
  - intros _ _ [= ->]. now split.
  - intros _ [N _] [= E _]. congruence.
  - intros [N _] _ [= E _]. congruence.
  - intros [_ Fa] [_ Fb] [= -> E]. destruct (IH b Fa Fb E) as [-> ->]. now split.
Qed.

(** X16.  Message identifiers determine the clock reading and the random
    suffix they were made from: two identifiers are equal only if both
    agree, so messages stamped at different times, or at the same time
    with different random suffixes, get different identifiers. *)
Theorem generateMessageId_injective (now now' : Date) (random random' : string) :
  generateMessageId now random = generateMessageId now' random' <->
  now = now' /\ random = random'.
Proof.
  split; [|now intros [-> ->]].
  unfold generateMessageId. intros E. simpl in E.
  injection E as E.
  destruct (split_at_delimiter "_"%char (decimal now) (decimal now') random random'
              (decimal_free_of_underscore now) (decimal_free_of_underscore now') E)
    as [D R].
  split; [now apply decimal_inj | exact R].
Qed.

(** ** The last member goes *)

(** X17.  In every reachable state, when the only member of a room goes by
    any route (a LeaveRoom envelope, the close or an error of its socket,
    or eviction by the heartbeat), the room is deleted from the table. *)
Theorem last_member_gone_deletes_room (trace : list Tick) (t : Tick) (ws : Handle)
  (userId roomId : string) :
  let w := run jwt_verify trace initial in
  departing w (event t) = Some ws ->
  bound (socket w ws) = Some (userId, roomId) ->
  members w roomId = [userId] ->
  let w' := step jwt_verify w t in
  JsMap.has (roomConnections w') roomId = false /\ members w' roomId = [].
Proof.
  intros w D B M w'.
  assert (H : forall u, JsMap.has (roomUsersOf w' roomId) u = false).
  { intros u. unfold w'. rewrite has_step.
    rewrite (departing_not_joining w (event t) ws roomId u D). simpl.
    destruct (JsMap.has (roomUsersOf w roomId) u) eqn:Hu; [|reflexivity].
    apply members_In in Hu. rewrite M in Hu. destruct Hu as [<-|[]].
    unfold ends_binding_of. now rewrite D, B, !String.eqb_refl. }
  assert (A : no_empty_room w').
  { unfold w', w. change (step jwt_verify (run jwt_verify trace initial) t)
      with (run jwt_verify [t] (run jwt_verify trace initial)).
    apply no_empty_room_run, no_empty_room_run, no_empty_room_initial. }
  assert (E : roomUsersOf w' roomId = []).
  { apply get_nil_none. intros u. specialize (H u). unfold JsMap.has in H.
    destruct (JsMap.get (roomUsersOf w' roomId) u); [discriminate | reflexivity]. }
  split.
  - unfold JsMap.has.
    destruct (JsMap.get (roomConnections w') roomId) as [roomUsers|] eqn:R;
      [|reflexivity].
    exfalso. apply (A _ _ R). unfold roomUsersOf in E. now rewrite R in E.
  - unfold members. now rewrite E.
Qed.

(** X18.  After a LeaveRoom was handled on a socket, the close of that
    socket is silent: the disconnect routine finds no user bound and
    changes nothing, so no second UserLeft is sent. *)
Theorem close_after_leave_is_silent (w : World) (ws : Handle)
  (message : LeaveRoomMessage) (leaving closing : Date) (rnd : string)
  (userId roomId : string) :
  bound (socket w ws) = Some (userId, roomId) ->
  let left := handleLeaveRoom w ws message leaving in
  handleDisconnection left ws closing = left
  /\ step jwt_verify left {| now := closing; random := rnd; event := OnClose ws |}
     = set_readyState left ws CLOSED.
Proof.
  intros B left.
  assert (U : ws_userId (socket left ws) = None).
  { unfold left. rewrite (handleLeaveRoom_bound w ws message leaving userId roomId B).
    unfold socket. simpl. now rewrite get_set_eq. }
  split.
  - rewrite handleDisconnection_block, U. reflexivity.
  - unfold step. cbn [event now]. rewrite handleDisconnection_block.
    assert (U' : ws_userId (socket (set_readyState left ws CLOSED) ws) = None)
      by (unfold set_readyState; now rewrite socket_update, Nat.eqb_refl).
    now rewrite U'.
Qed.

End Handlers.

(** * The properties on the concrete deployment *)

(** C1, counterexample.  Socket 1 joins r1 as alice, joins r2, and is
    closed.  alice joined r1 and her only socket has since been
    disconnected, yet r1 still lists her: the close handler looked at r2,
    the room the socket was bound to last. *)
Lemma members_keep_user_of_closed_socket :
  ~ (In "alice" (members (run Demo.verify Demo.rejoin_then_close initial) "r1")
     <-> joined_and_not_left Demo.verify Demo.rejoin_then_close "r1" "alice" = true).
Proof.
  intros [H _].
  assert (I : In "alice" (members (run Demo.verify Demo.rejoin_then_close initial) "r1"))
    by (vm_compute; now left).
  specialize (H I). vm_compute in H. discriminate.
Qed.

(** C2, on an example: alice is alone in r1 and leaves. *)
Lemma room_listed_iff_nonempty_witness :
  let w := run Demo.verify Demo.alice_alone initial in
  bound (socket w 1) = Some ("alice", "r1")
  /\ members w "r1" = ["alice"]
  /\ JsMap.has (roomConnections (handleLeaveRoom w 1 (Demo.goodbye "r1") 20)) "r1"
     = false.
Proof.
  intros w. split; [reflexivity|]. split; [reflexivity|].
  apply (proj2 (room_listed_iff_nonempty Demo.verify Demo.alice_alone "r1")
           1 (Demo.goodbye "r1") 20 "alice"); reflexivity.
Defined.

(** C3, counterexample.  After socket 1 joined r1 and then r2 as alice,
    alice is a member of both. *)
Lemma rejoin_leaves_two_entries :
  ~ single_room (run Demo.verify Demo.two_rooms initial).
Proof.
  intros S.
  assert (E : "r1" = "r2"); [|discriminate].
  apply (S "alice"); vm_compute; now left.
Qed.

(** C3 (as amended), on an example: alice and bob each join one room. *)
Lemma single_room_when_joins_are_roomless_witness :
  joins_only_when_roomless Demo.verify initial Demo.alice_and_bob = true
  /\ single_room (run Demo.verify Demo.alice_and_bob initial).
Proof.
  split; [reflexivity|].
  apply (proj1 (single_room_when_joins_are_roomless Demo.verify Demo.alice_and_bob)).
  reflexivity.
Defined.

(** C4, on an example: alice's socket is disconnected twice while bob is
    in the room; bob gets one UserLeft. *)
Lemma handleDisconnection_twice_witness :
  let w := run Demo.verify Demo.alice_and_bob initial in
  let once := handleDisconnection w 1 20 in
  let twice := handleDisconnection once 1 21 in
  bound (socket w 1) = Some ("alice", "r1")
  /\ JsMap.get (roomUsersOf w "r1") "alice" = Some Demo.alice_entry
  /\ sent_since w twice = [(2, USER_LEFT "r1" "alice" "Alice" 20)]
  /\ sent_since once twice = [].
Proof.
  intros w once twice. split; [reflexivity|]. split; [reflexivity|].
  destruct (handleDisconnection_twice w 1 20 21 "alice" "r1" Demo.alice_entry
              eq_refl eq_refl) as (S1 & S2 & S3 & _).
  split; [|exact S2].
  fold once twice in S1, S3. rewrite S3, S1. reflexivity.
Defined.

(** C5, counterexample.  alice is in r1 and her transport is closing when
    bob joins r1: alice is a member other than the joiner and is sent no
    UserJoined. *)
Lemma join_skips_closing_member :
  let w := run Demo.verify Demo.bob_arrives initial in
  let w' := handleJoinRoom Demo.verify w 2 Demo.bob_join 14 in
  ~ (forall userId connection,
       JsMap.get (roomUsersOf w' "r1") userId = Some connection ->
       userId <> "bob" ->
       length (filter is_USER_JOINED
                 (deliveries_to (rc_ws connection) (sent_since w w'))) = 1).
Proof.
  intros w w' H.
  specialize (H "alice" Demo.alice_entry eq_refl).
  assert (N : "alice" <> "bob") by discriminate.
  specialize (H N). vm_compute in H. discriminate.
Qed.

(** C5 (as amended), on an example: bob joins r1 where alice is, both
    sockets open. *)
Lemma handleJoinRoom_notifies_witness :
  let w := run Demo.verify
             (Demo.alice_alone ++ [Demo.tick 12 (OnConnection 2)]) initial in
  let w' := handleJoinRoom Demo.verify w 2 Demo.bob_join 13 in
  Demo.verify (jr_token Demo.bob_join) = Some ("bob", "Bob")
  /\ isOpen w 2 = true
  /\ deliveries_to 1 (sent_since w w') = [USER_JOINED "r1" "bob" "Bob" 13]
  /\ deliveries_to 2 (sent_since w w')
     = [ROOM_STATE "r1"
          [ {| ru_userId := "alice"; ru_username := "Alice"; ru_joinedAt := 11 |};
            {| ru_userId := "bob"; ru_username := "Bob"; ru_joinedAt := 13 |} ] 13].
Proof.
  intros w w'. split; [reflexivity|]. split; [reflexivity|].
  destruct (handleJoinRoom_notifies Demo.verify w 2 Demo.bob_join 13 "bob" "Bob"
              eq_refl eq_refl) as (_ & _ & D & _ & J & _).
  split.
  - apply (D "alice" Demo.alice_entry); [reflexivity | discriminate].
  - apply J. reflexivity.
Defined.

(** C6, on an example: alice sends a chat message that claims to come
    from mallory at time 7; alice and bob both get it, stamped. *)
Lemma relayed_messages_are_server_stamped_witness :
  let w := run Demo.verify Demo.alice_and_bob initial in
  let w' := handleMessage Demo.verify w 1 (CHAT_MESSAGE Demo.hello) 20 "k3x9q1z7p" in
  bound (socket w 1) = Some ("alice", "r1")
  /\ relayed (CHAT_MESSAGE Demo.hello) = true
  /\ exists stamped,
       sent_since w w' = [(1, stamped); (2, stamped)]
       /\ carries (CHAT_MESSAGE Demo.hello) stamped
       /\ senderIdOf stamped = Some "alice"
       /\ timestampOf stamped = 20.
Proof.
  intros w w'. split; [reflexivity|]. split; [reflexivity|].
  destruct (relayed_messages_are_server_stamped Demo.verify w 1
              (CHAT_MESSAGE Demo.hello) 20 "k3x9q1z7p" "alice" "r1"
              eq_refl eq_refl) as ((stamped & S & C & Hs & Ht & _) & _).
  exists stamped. split; [exact S|]. split; [exact C|]. split; [exact Hs | exact Ht].
Defined.

(** C7, counterexample.  alice's transport is closing when a frame is
    broadcast to r1.  The delivery to alice does not happen, bob still gets
    the frame, and the call leaves everything but the outbox as it was: no
    log line, alice still a member of r1 and still in the registry. *)
Lemma broadcast_failure_is_silent :
  let w := run Demo.verify Demo.alice_closing initial in
  let frame := CHAT {| cm_roomId := "r1"; cm_message := "hi";
                       cm_senderId := Some "bob"; cm_id := Some "msg_15_k3x9q1z7p";
                       cm_timestamp := 15 |} in
  let w' := broadcastToRoom w "r1" frame None in
  members w "r1" = ["alice"; "bob"]
  /\ isOpen w 1 = false
  /\ sent_since w w' = [(2, frame)]
  /\ logs w' = logs w
  /\ members w' "r1" = ["alice"; "bob"]
  /\ JsMap.get (connections w') "alice" = Some 1
  /\ with_outbox w' (outbox w) = w.
Proof. vm_compute. repeat split. Qed.

(** C7 (as amended), on the same example. *)
Lemma broadcastToRoom_skips_closed_witness :
  let w := run Demo.verify Demo.alice_closing initial in
  let frame := USER_LEFT "r1" "carol" "Carol" 15 in
  isOpen w 1 = false
  /\ deliveries_to 1 (sent_since w (broadcastToRoom w "r1" frame None)) = [].
Proof.
  intros w frame. split; [reflexivity|].
  destruct (broadcastToRoom_skips_closed w "r1" frame None) as (_ & _ & C & _).
  apply C. reflexivity.
Defined.

(** C8, counterexample.  A fresh socket presents an expired token and its
    transport is closing by the time the credential is refused: no Error
    frame with code JOIN_ROOM_FAILED is sent to it, nor anything else. *)
Lemma refused_join_on_closing_socket :
  let w := run Demo.verify [Demo.tick 10 (OnConnection 1);
                            Demo.tick 11 (OnClosing 1)] initial in
  let w' := handleJoinRoom Demo.verify w 1 Demo.bad_join 12 in
  Demo.verify (jr_token Demo.bad_join) = None
  /\ ~ (exists text timestamp,
          In (1, ERROR "JOIN_ROOM_FAILED" text timestamp) (sent_since w w'))
  /\ sent_since w w' = [].
Proof.
  intros w w'. split; [reflexivity|]. split; [|reflexivity].
  intros (text & timestamp & I). vm_compute in I. exact I.
Qed.

(** C8 (as amended), on examples: a fresh socket presents an expired
    token, once with its transport open and once with it closing. *)
Lemma handleJoinRoom_invalid_credential_witness :
  let w := run Demo.verify [Demo.tick 10 (OnConnection 1)] initial in
  let w' := handleJoinRoom Demo.verify w 1 Demo.bad_join 11 in
  let v := run Demo.verify [Demo.tick 10 (OnConnection 1);
                            Demo.tick 11 (OnClosing 1)] initial in
  let v' := handleJoinRoom Demo.verify v 1 Demo.bad_join 12 in
  Demo.verify (jr_token Demo.bad_join) = None
  /\ sent_since w w' = [(1, ERROR "JOIN_ROOM_FAILED" "Failed to join room" 11)]
  /\ roomConnections w' = roomConnections w
  /\ sent_since v v' = []
  /\ sockets v' = sockets v.
Proof.
  intros w w' v v'. split; [reflexivity|].
  destruct (handleJoinRoom_invalid_credential Demo.verify w 1 Demo.bad_join 11
              eq_refl) as (S & _ & R & _).
  destruct (handleJoinRoom_invalid_credential Demo.verify v 1 Demo.bad_join 12
              eq_refl) as (S' & _ & _ & K & _).
  split; [exact S|]. split; [exact R|]. split; [exact S' | exact K].
Defined.

(** C9, on an example: alice, bound to r1, sends LeaveRoom naming r9. *)
Lemma handleLeaveRoom_uses_bound_room_witness :
  let w := run Demo.verify Demo.alice_and_bob initial in
  let w' := handleLeaveRoom w 1 (Demo.goodbye "r9") 20 in
  bound (socket w 1) = Some ("alice", "r1")
  /\ JsMap.has (roomUsersOf w' "r1") "alice" = false
  /\ connections w' = JsMap.delete (connections w) "alice"
  /\ ws_roomId (socket w' 1) = None.
Proof.
  intros w w'. split; [reflexivity|].
  destruct (handleLeaveRoom_uses_bound_room w 1 (Demo.goodbye "r9")
              (Demo.goodbye "r1") 20 "alice" "r1" eq_refl)
    as (_ & M & C & _ & R & _).
  split; [|split; [exact C | exact R]].
  exact (eq_trans (M "r1" "alice") eq_refl).
Defined.

(** C10, counterexample.  alice's transport is closing when bob sends a
    chat message to r1: alice is a member of the room and gets nothing. *)
Lemma chat_skips_closing_member :
  let w := run Demo.verify Demo.alice_closing initial in
  let w' := handleChatMessage w 2 Demo.hello 15 "k3x9q1z7p" in
  ~ (forall userId connection,
       JsMap.get (roomUsersOf w "r1") userId = Some connection ->
       deliveries_to (rc_ws connection) (sent_since w w') <> []).
Proof.
  intros w w' H.
  apply (H "alice" {| rc_userId := "alice"; rc_username := "Alice"; rc_ws := 1;
                      rc_joinedAt := 11 |}); reflexivity.
Qed.

(** C10 (as amended), on an example: alice and bob are in r1 with open
    sockets; alice's chat message comes back to her, her media-control
    message does not. *)
Lemma relay_recipients_witness :
  let w := run Demo.verify Demo.alice_and_bob initial in
  bound (socket w 1) = Some ("alice", "r1")
  /\ (exists stamped,
        deliveries_to 1 (sent_since w (handleChatMessage w 1 Demo.hello 20 "k3x9q1z7p"))
        = [CHAT stamped])
  /\ (forall m, deliveries_to 1 (sent_since w (handleMediaControl w 1 m 20)) = []).
Proof.
  intros w. split; [reflexivity|].
  destruct (relay_recipients w 1 20 "k3x9q1z7p" "alice" "r1" eq_refl)
    as (_ & _ & _ & _ & _ & Own).
  destruct (Own Demo.alice_entry eq_refl eq_refl) as (Chat & Media & _).
  split; [eexists; apply Chat | exact Media].
Defined.

(** * Further properties on the concrete deployment *)

(** X1, on an example: alice's chat message reaches bob's open socket. *)
Lemma frames_only_to_open_sockets_witness :
  let w := run Demo.verify Demo.alice_and_bob initial in
  let t := Demo.tick 20 (OnMessage 1 (Some (CHAT_MESSAGE Demo.hello))) in
  In (2, Demo.hello_stamped) (sent_since w (step Demo.verify w t))
  /\ isOpen w 2 = true.
Proof.
  intros w t.
  assert (I : In (2, Demo.hello_stamped) (sent_since w (step Demo.verify w t)))
    by (vm_compute; right; now left).
  split; [exact I|].
  exact (frames_only_to_open_sockets Demo.verify w t 2 Demo.hello_stamped I).
Defined.


(** X3, on an example: bob joins r1 and alice is told. *)
Lemma presence_frames_stay_in_room_witness :
  let w := run Demo.verify Demo.bob_connected initial in
  let t := Demo.tick 13 (Demo.join 2 "r1" "token-bob") in
  let frame := USER_JOINED "r1" "bob" "Bob" 13 in
  In (1, frame) (sent_since w (step Demo.verify w t))
  /\ presence_of frame = Some ("r1", "bob")
  /\ exists k c, In (k, c) (roomUsersOf w "r1") /\ k <> "bob" /\ rc_ws c = 1.
Proof.
  intros w t frame.
  assert (I : In (1, frame) (sent_since w (step Demo.verify w t)))
    by (vm_compute; now left).
  split; [exact I|]. split; [reflexivity|].
  exact (presence_frames_stay_in_room Demo.verify w t 1 frame "r1" "bob" I eq_refl).
Defined.

(** X4, on an example: alice's chat message as bob receives it. *)
Lemma relayed_frames_stay_in_room_witness :
  let w := run Demo.verify Demo.alice_and_bob initial in
  let t := Demo.tick 20 (OnMessage 1 (Some (CHAT_MESSAGE Demo.hello))) in
  In (2, Demo.hello_stamped) (sent_since w (step Demo.verify w t))
  /\ exists message userId roomId,
       event t = OnMessage (origin (event t)) (Some message)
       /\ relayed message = true
       /\ bound (socket w (origin (event t))) = Some (userId, roomId)
       /\ senderIdOf Demo.hello_stamped = Some userId
       /\ exists k c, In (k, c) (roomUsersOf w roomId) /\ rc_ws c = 2.
Proof.
  intros w t.
  assert (I : In (2, Demo.hello_stamped) (sent_since w (step Demo.verify w t)))
    by (vm_compute; right; now left).
  split; [exact I|].
  exact (relayed_frames_stay_in_room Demo.verify w t 2 Demo.hello_stamped I
           eq_refl eq_refl).
Defined.

(** X5, on an example: when alice is told that bob joined r1, bob is a
    member of r1. *)
Lemma presence_frames_match_membership_witness :
  let w := run Demo.verify Demo.bob_connected initial in
  let t := Demo.tick 13 (Demo.join 2 "r1" "token-bob") in
  In (1, USER_JOINED "r1" "bob" "Bob" 13) (sent_since w (step Demo.verify w t))
  /\ In "bob" (members (step Demo.verify w t) "r1").
Proof.
  intros w t.
  assert (I : In (1, USER_JOINED "r1" "bob" "Bob" 13)
                (sent_since w (step Demo.verify w t)))
    by (vm_compute; now left).
  split; [exact I|].
  exact (presence_frames_match_membership Demo.verify w t 1 _ I).
Defined.

(** X6, on an example: a chat message changes no table. *)
Lemma bystanders_keep_presence_witness :
  let w := run Demo.verify Demo.alice_and_bob initial in
  let t := Demo.tick 20 (OnMessage 1 (Some (CHAT_MESSAGE Demo.hello))) in
  bystander w (event t) = true
  /\ roomConnections (step Demo.verify w t) = roomConnections w.
Proof.
  intros w t. split; [reflexivity|].
  destruct (bystanders_keep_presence Demo.verify w t eq_refl) as (_ & R & _).
  exact R.
Defined.

(** X7, on an example: alice's socket misses a probe. *)
Lemma missed_probe_evicts_witness :
  let w := run Demo.verify Demo.alice_and_bob initial in
  let w' := run Demo.verify [ Demo.tick 30 (OnHeartbeat 1);
                              Demo.tick 60 (OnHeartbeat 1) ] w in
  bound (socket w 1) = Some ("alice", "r1")
  /\ ~ In "alice" (members w' "r1")
  /\ isOpen w' 1 = false.
Proof.
  intros w w'. split; [reflexivity|].
  destruct (missed_probe_evicts Demo.verify w 1 30 60 "k3x9q1z7p" "alice" "r1"
              eq_refl) as (M & _ & O).
  split; [exact M | exact O].
Defined.

(** X8, on an example: alice's socket answers three probes. *)
Lemma answered_probes_keep_socket_witness :
  let w := run Demo.verify Demo.alice_and_bob initial in
  let round := fun n => [ Demo.tick n (OnHeartbeat 1); Demo.tick n (OnPong 1) ] in
  ws_isAlive (socket w 1) <> Some false
  /\ roomConnections (run Demo.verify (flat_map round [30; 60; 90]) w)
     = roomConnections w.
Proof.
  intros w round.
  assert (A : ws_isAlive (socket w 1) <> Some false) by discriminate.
  split; [exact A|].
  destruct (answered_probes_keep_socket Demo.verify w 1 [30; 60; 90] "k3x9q1z7p" A)
    as (_ & R & _).
  exact R.
Defined.

(** X9, on an example: alice's socket is closed, or alice leaves. *)
Lemma disconnect_is_leave_witness :
  let w := run Demo.verify Demo.alice_and_bob initial in
  bound (socket w 1) = Some ("alice", "r1")
  /\ outbox (handleDisconnection w 1 20)
     = outbox (handleLeaveRoom w 1 (Demo.goodbye "r1") 20).
Proof.
  intros w. split; [reflexivity|].
  destruct (disconnect_is_leave w 1 (Demo.goodbye "r1") 20 "alice" "r1" eq_refl)
    as (_ & _ & O & _).
  exact O.
Defined.

(** X10, on an example: a fresh socket joins r1 as alice and leaves. *)
Lemma join_then_leave_restores_witness :
  let trace := [Demo.tick 10 (OnConnection 1)] in
  let w := run Demo.verify trace initial in
  let jm := {| jr_roomId := "r1"; jr_token := "token-alice"; jr_timestamp := 0 |} in
  let w' := handleLeaveRoom (handleJoinRoom Demo.verify w 1 jm 11) 1
              (Demo.goodbye "r1") 12 in
  Demo.verify (jr_token jm) = Some ("alice", "Alice")
  /\ JsMap.get (connections w) "alice" = None
  /\ ~ In "alice" (members w "r1")
  /\ sockets w' = sockets w
  /\ connections w' = connections w
  /\ roomConnections w' = roomConnections w.
Proof.
  intros trace w jm w'.
  assert (N : ~ In "alice" (members w "r1")) by (intros []).
  split; [reflexivity|]. split; [reflexivity|]. split; [exact N|].
  apply (join_then_leave_restores Demo.verify trace 1 jm (Demo.goodbye "r1") 11 12
           "alice" "Alice"
           {| ws_userId := None; ws_roomId := None; ws_isAlive := Some true;
              ws_readyState := OPEN |});
    try reflexivity; try discriminate; exact N.
Defined.

(** X11, on an example: bob joins r1 after alice. *)
Lemma join_keeps_join_order_witness :
  let w := run Demo.verify Demo.bob_connected initial in
  Demo.verify (jr_token Demo.bob_join) = Some ("bob", "Bob")
  /\ ~ In "bob" (members w "r1")
  /\ members (handleJoinRoom Demo.verify w 2 Demo.bob_join 13) "r1"
     = ["alice"; "bob"].
Proof.
  intros w.
  assert (N : ~ In "bob" (members w "r1")) by (intros [E|[]]; discriminate).
  split; [reflexivity|]. split; [exact N|].
  destruct (join_keeps_join_order Demo.verify w 2 Demo.bob_join 13 "bob" "Bob"
              eq_refl) as [New _].
  exact (proj1 (New N)).
Defined.

(** X14, on an example: alice joined the room with the empty id; neither
    her LeaveRoom nor the close of her socket takes her out. *)
Lemma empty_id_entry_is_permanent_witness :
  let w := run Demo.verify Demo.nameless_room initial in
  let later := [ Demo.tick 12 (Demo.leave 1 ""); Demo.tick 13 (OnClose 1) ] in
  In "alice" (members w "")
  /\ In "alice" (members (run Demo.verify later w) "").
Proof.
  intros w later.
  assert (I : In "alice" (members w "")) by (vm_compute; now left).
  split; [exact I|].
  exact (empty_id_entry_is_permanent Demo.verify later w "" "alice"
           (or_introl eq_refl) I).
Defined.

(** X15, on an example: a socket that never joined sends a chat message. *)
Lemma not_in_room_is_rejected_witness :
  let w := run Demo.verify [Demo.tick 10 (OnConnection 1)] initial in
  let w' := handleMessage Demo.verify w 1 (CHAT_MESSAGE Demo.hello) 11 "k3x9q1z7p" in
  bound (socket w 1) = None
  /\ with_outbox w' (outbox w) = w.
Proof.
  intros w w'. split; [reflexivity|].
  destruct (not_in_room_is_rejected Demo.verify w 1 (CHAT_MESSAGE Demo.hello) 11
              "k3x9q1z7p" eq_refl I) as [_ F].
  exact F.
Defined.

(** X16, on an example: same clock reading, different random suffix. *)
Lemma generateMessageId_injective_witness :
  generateMessageId 20 "k3x9q1z7p" = "msg_20_k3x9q1z7p"
  /\ generateMessageId 20 "k3x9q1z7p" <> generateMessageId 20 "a0b1c2d3e".
Proof.
  split; [reflexivity|].
  intros E. apply (generateMessageId_injective 20 20 "k3x9q1z7p" "a0b1c2d3e") in E.
  destruct E as [_ E]. discriminate.
Defined.

(** X17, on an example: alice is alone in r1 and her socket closes. *)
Lemma last_member_gone_deletes_room_witness :
  let w := run Demo.verify Demo.alice_alone initial in
  let t := Demo.tick 20 (OnClose 1) in
  departing w (event t) = Some 1
  /\ bound (socket w 1) = Some ("alice", "r1")
  /\ members w "r1" = ["alice"]
  /\ JsMap.has (roomConnections (step Demo.verify w t)) "r1" = false.
Proof.
  intros w t. split; [reflexivity|]. split; [reflexivity|]. split; [reflexivity|].
  destruct (last_member_gone_deletes_room Demo.verify Demo.alice_alone t 1
              "alice" "r1" eq_refl eq_refl eq_refl) as [H _].
  exact H.
Defined.

(** X18, on an example: alice leaves r1, then her socket closes. *)
Lemma close_after_leave_is_silent_witness :
  let w := run Demo.verify Demo.alice_and_bob initial in
  let left := handleLeaveRoom w 1 (Demo.goodbye "r1") 20 in
  bound (socket w 1) = Some ("alice", "r1")
  /\ handleDisconnection left 1 21 = left.
Proof.
  intros w left. split; [reflexivity|].
  destruct (close_after_leave_is_silent Demo.verify w 1 (Demo.goodbye "r1") 20 21
              "k3x9q1z7p" "alice" "r1" eq_refl) as [H _].
  exact H.
Defined.
